(** * The sales data pipeline of [data_pipe.py]

    The pipeline is six small stages written against a data-table library
    (pandas) and a plotting library.  The development has three layers:

    - [Pandas]: the table model and the library operations the stages call,
      as far as the stages use them;
    - the stages themselves ([data_cleaning], [convert_dtypes],
      [data_analysis], [data_visualization], [save_to_csv]) as programs of
      a small state-and-exception monad over a store of table objects and
      a file system, because one of them updates its argument in place;
    - the properties of the stages.

    Numbers that are 64-bit floats in the program are exact rationals here:
    rounding is not modelled. *)

From Stdlib Require Import ZArith QArith Qcanon Ascii String.
From stdpp Require Import base option list sorting gmap strings numbers pretty.

Set Default Proof Using "Type".

(** ** The table model *)

Module Pandas.

(** A point in time; only the calendar fields the pipeline reads are split
    out, the time of day is kept as nanoseconds since midnight. *)
Record Timestamp := mkTimestamp {
  ts_year : Z;
  ts_month : Z;
  ts_day : Z;
  ts_nanos : Z
}.

Inductive scalar :=
| VInt (z : Z)
| VFloat (q : Qc)
| VStr (s : string)
| VDate (t : Timestamp).

(** Column types, by kind; widths are not distinguished. *)
Inductive dtype := dt_object | dt_int | dt_float | dt_datetime.

(** A value of a [Series]: [None] is the missing value (NaN, NaT). *)
Abbreviation cell := (option scalar).

(** A row maps column names to values; a column without an entry holds the
    missing value in that row. *)
Abbreviation row := (gmap string scalar).

Record DataFrame := mkDataFrame {
  df_columns : list (string * dtype);
  df_rows : list (Z * row)             (* index label, row *)
}.

Record Series := mkSeries {
  s_name : option string;
  s_index_name : option string;
  s_dtype : dtype;
  s_items : list (Z * cell)            (* index label, value *)
}.

Global Instance Timestamp_eq_dec : EqDecision Timestamp.
Proof. solve_decision. Defined.
Global Instance scalar_eq_dec : EqDecision scalar.
Proof. solve_decision. Defined.
Global Instance dtype_eq_dec : EqDecision dtype.
Proof. solve_decision. Defined.
Global Instance DataFrame_eq_dec : EqDecision DataFrame.
Proof. solve_decision. Defined.
Global Instance Series_eq_dec : EqDecision Series.
Proof. solve_decision. Defined.

Definition column_names (df : DataFrame) : list string := (df_columns df).*1.

(** The rows without their labels, and the labels. *)
Definition rows_of (df : DataFrame) : list row := (df_rows df).*2.
Definition df_index (df : DataFrame) : list Z := (df_rows df).*1.

Definition column_dtype (df : DataFrame) (c : string) : option dtype :=
  (λ p, p.2.2) <$> list_find (λ cd, cd.1 = c) (df_columns df).

(** *** [DataFrame.drop_duplicates], [dropna], [reset_index(drop=True)] *)

(** Two rows are duplicates when they agree on every column of the frame
    (two missing values agree). *)
Definition same_row (cols : list string) (r1 r2 : row) : Prop :=
  Forall (λ c, r1 !! c = r2 !! c) cols.

Global Instance same_row_dec cols r1 r2 : Decision (same_row cols r1 r2).
Proof. unfold same_row. apply _. Defined.

(** [keep='first']: a row is dropped when an equal row came before it. *)
Fixpoint keep_first (cols : list string) (seen : list row)
    (rows : list (Z * row)) : list (Z * row) :=
  match rows with
  | [] => []
  | ir :: rest =>
      if decide (Exists (same_row cols ir.2) seen)
      then keep_first cols seen rest
      else ir :: keep_first cols (ir.2 :: seen) rest
  end.

Definition drop_duplicates (df : DataFrame) : DataFrame :=
  {| df_columns := df_columns df;
     df_rows := keep_first (column_names df) [] (df_rows df) |}.

(** A row is complete when it has a value in every column. *)
Definition complete (cols : list string) (r : row) : Prop :=
  Forall (λ c, is_Some (r !! c)) cols.

Global Instance complete_dec cols r : Decision (complete cols r).
Proof. unfold complete. apply _. Defined.

Definition dropna (df : DataFrame) : DataFrame :=
  {| df_columns := df_columns df;
     df_rows := filter (λ ir, complete (column_names df) ir.2) (df_rows df) |}.

Definition reset_index (df : DataFrame) : DataFrame :=
  {| df_columns := df_columns df;
     df_rows := imap (λ i ir, (Z.of_nat i, ir.2)) (df_rows df) |}.

(** *** Column selection and assignment *)

Inductive exn :=
| FileNotFoundError (path : string)
| ParserError
| KeyError (key : string)       (* a column that is not there *)
| AttributeError                (* [.dt] on a column that holds no dates *)
| TypeError
| CastError (col : string)      (* ValueError raised by [astype] *)
| DateParseError
| PlotKindError (kind : string) (* ValueError raised by [plot] *)
| BackendError
| WrongObject.                  (* a reference that is not to a table of
                                   the expected kind *)

Inductive res (A : Type) :=
| Ok (a : A)
| Raise (e : exn).
Arguments Ok {A} a.
Arguments Raise {A} e.

Global Instance exn_eq_dec : EqDecision exn.
Proof. solve_decision. Defined.

(** [df[c]] *)
Definition getitem (df : DataFrame) (c : string) : res Series :=
  match column_dtype df c with
  | None => Raise (KeyError c)
  | Some dt =>
      Ok {| s_name := Some c; s_index_name := None; s_dtype := dt;
            s_items := (λ ir : Z * row, (ir.1, ir.2 !! c)) <$> df_rows df |}
  end.

Definition month_of (v : cell) : cell :=
  match v with
  | Some (VDate t) => Some (VInt (ts_month t))
  | _ => None
  end.

(** [s.dt.month]: integers, or floats when some date is missing. *)
Definition dt_month (s : Series) : res Series :=
  match s_dtype s with
  | dt_datetime =>
      let items := (λ lv : Z * cell, (lv.1, month_of lv.2)) <$> s_items s in
      Ok {| s_name := s_name s; s_index_name := s_index_name s;
            s_dtype := if decide (Forall (λ lv : Z * cell, is_Some lv.2) items)
                       then dt_int else dt_float;
            s_items := items |}
  | _ => Raise AttributeError
  end.

Fixpoint set_dtype (c : string) (dt : dtype) (cols : list (string * dtype))
    : list (string * dtype) :=
  match cols with
  | [] => [(c, dt)]
  | cd :: cols' =>
      if decide (cd.1 = c) then (c, dt) :: cols' else cd :: set_dtype c dt cols'
  end.

(** [df[c] = s] for a series [s] over the index of [df]: the values are
    taken by position; an existing column is replaced where it stands, a
    new one is added last. *)
Definition setitem (df : DataFrame) (c : string) (s : Series) : DataFrame :=
  {| df_columns := set_dtype c (s_dtype s) (df_columns df);
     df_rows :=
       imap (λ i (ir : Z * row),
               (ir.1, partial_alter (λ _, s_items s !! i ≫= snd) c ir.2))
            (df_rows df) |}.

(** *** What is left to the libraries

    The stages never look inside these operations; the properties below
    hold whatever they compute. *)

Inductive obj :=
| ODataFrame (df : DataFrame)
| OSeries (s : Series).

Record Chart := mkChart {
  chart_kind : string;
  chart_title : string;
  chart_data : obj
}.

(** A figure of the plotting library: its size in inches ([None] is the
    default size) and what has been drawn on it. *)
Record Figure := mkFigure {
  fig_size : option (Z * Z);
  fig_charts : list Chart
}.

Inductive File :=
| CsvFile (header : list string) (records : list (list cell))
| ImageFile (fig : Figure).

Global Instance obj_eq_dec : EqDecision obj.
Proof. solve_decision. Defined.
Global Instance Chart_eq_dec : EqDecision Chart.
Proof. solve_decision. Defined.
Global Instance Figure_eq_dec : EqDecision Figure.
Proof. solve_decision. Defined.
Global Instance File_eq_dec : EqDecision File.
Proof. solve_decision. Defined.

Class Engine := {
  (** [read_csv]: parsing and type inference; [None] when the text is not
      a table. *)
  read_csv_file : File → option DataFrame;
  (** [pandas_dtype]: the column type a type name stands for. *)
  pandas_dtype : string → option dtype;
  (** [Series.astype(ty)] on the values of a column of the given type;
      [None] when some value cannot be cast. *)
  astype_values : string → dtype → list cell → option (list cell);
  (** [to_datetime] on the values of a column; [None] when some value is
      not recognised as a date. *)
  to_datetime_values : dtype → list cell → option (list (option Timestamp));
  (** the mean of a group of a column that is not numeric; [None] when
      the values cannot be averaged. *)
  mean_other : dtype → list cell → option cell;
  (** the plotting backend, asked for a chart of a valid kind, with a
      size and a title, while the given figure is the current one: the
      current figure it leaves, and whether it has drawn the chart. *)
  backend_plot :
    option Figure → obj → string → Z * Z → string → option Figure * bool
}.

(** *** [groupby(key)[col].mean()] *)

(** Group keys are the integers of the key column; a row whose key is
    missing belongs to no group. *)
Definition key_of (key : string) (r : row) : option Z :=
  match r !! key with
  | Some (VInt k) => Some k
  | _ => None
  end.

Fixpoint insert_key (k : Z) (l : list Z) : list Z :=
  match l with
  | [] => [k]
  | x :: l' =>
      if decide (k < x)%Z then k :: l
      else if decide (k = x) then l
      else x :: insert_key k l'
  end.

(** The distinct keys, ascending ([sort=True]). *)
Definition sorted_unique (ks : list Z) : list Z := foldr insert_key [] ks.

(** The group number of a key. *)
Definition code_of (uniques : list Z) (k : Z) : option nat :=
  fst <$> list_find (λ x, x = k) uniques.

Definition to_float (v : scalar) : option Qc :=
  match v with
  | VInt z => Some (Q2Qc (inject_Z z))
  | VFloat q => Some q
  | _ => None
  end.

(** One pass over the rows, adding each value to the sum and the count of
    its group; rows without a group and missing values are skipped. *)
Definition group_add (acc : list Qc * list nat) (lv : option nat * option Qc)
    : list Qc * list nat :=
  match lv with
  | (Some lab, Some v) =>
      (alter (λ s, s + v)%Qc lab acc.1, alter S lab acc.2)
  | _ => acc
  end.

Definition group_mean (ngroups : nat) (labelled : list (option nat * option Qc))
    : list cell :=
  let acc := foldl group_add (replicate ngroups 0%Qc, replicate ngroups 0%nat)
                   labelled in
  zip_with (λ s n, match n with
                   | O => None
                   | _ => Some (VFloat (s / Q2Qc (inject_Z (Z.of_nat n)))%Qc)
                   end) acc.1 acc.2.

Section with_engine.
Context `{Engine}.

Definition groupby_mean (df : DataFrame) (key col : string) : res Series :=
  match column_dtype df key with
  | None => Raise (KeyError key)
  | Some _ =>
      match column_dtype df col with
      | None => Raise (KeyError col)
      | Some dt =>
          let rows := snd <$> df_rows df in
          let uniques := sorted_unique (omap (key_of key) rows) in
          let out :=
            match dt with
            | dt_int | dt_float =>
                Some (group_mean (length uniques)
                        ((λ r : row, (key_of key r ≫= code_of uniques,
                                      r !! col ≫= to_float)) <$> rows))
            | _ =>
                mapM (λ k,
                        mean_other dt
                          ((λ r : row, r !! col)
                             <$> filter (λ r, key_of key r = Some k) rows))
                     uniques
            end in
          match out with
          | None => Raise TypeError
          | Some vs =>
              Ok {| s_name := Some col; s_index_name := Some key;
                    s_dtype := match dt with dt_int => dt_float | _ => dt end;
                    s_items := zip uniques vs |}
          end
      end
  end.

(** *** [DataFrame.astype(dict)] and [to_datetime] *)

Definition column_values (df : DataFrame) (c : string) : list cell :=
  (λ ir : Z * row, ir.2 !! c) <$> df_rows df.

Definition set_values (df : DataFrame) (c : string) (dt : dtype)
    (vs : list cell) : DataFrame :=
  {| df_columns := set_dtype c dt (df_columns df);
     df_rows :=
       imap (λ i (ir : Z * row),
               (ir.1, partial_alter (λ _, vs !! i ≫= id) c ir.2))
            (df_rows df) |}.

(** The columns are cast one after the other, in the order of the frame. *)
Fixpoint astype_columns (types : list (string * string))
    (cols : list (string * dtype)) (df : DataFrame) : res DataFrame :=
  match cols with
  | [] => Ok df
  | (c, dt) :: cols' =>
      match list_find (λ kt : string * string, kt.1 = c) types with
      | None => astype_columns types cols' df
      | Some (_, (_, ty)) =>
          match pandas_dtype ty with
          | None => Raise TypeError
          | Some dt' =>
              match astype_values ty dt (column_values df c) with
              | None => Raise (CastError c)
              | Some vs => astype_columns types cols' (set_values df c dt' vs)
              end
          end
      end
  end.

Definition astype (df : DataFrame) (types : list (string * string))
    : res DataFrame :=
  match list_find (λ kt : string * string, kt.1 ∉ column_names df) types with
  | Some (_, (k, _)) => Raise (KeyError k)
  | None => astype_columns types (df_columns df) df
  end.

Definition to_datetime (s : Series) : res Series :=
  match to_datetime_values (s_dtype s) (snd <$> s_items s) with
  | None => Raise DateParseError
  | Some ts =>
      Ok {| s_name := s_name s; s_index_name := s_index_name s;
            s_dtype := dt_datetime;
            s_items := imap (λ i (lv : Z * cell),
                               (lv.1, VDate <$> (ts !! i ≫= id)))
                            (s_items s) |}
  end.

(** *** The kinds of [plot], and [to_csv] *)

Definition common_kinds : list string :=
  ["line"; "bar"; "barh"; "kde"; "density"; "area"; "hist"; "box"].
Definition series_kinds : list string := ["pie"].
Definition dataframe_kinds : list string := ["scatter"; "hexbin"].
Definition all_kinds : list string :=
  common_kinds ++ series_kinds ++ dataframe_kinds.

Definition kind_alias (kind : string) : string :=
  if decide (kind = "density") then "kde" else kind.

Definition is_frame (o : obj) : bool :=
  match o with ODataFrame _ => true | OSeries _ => false end.

(** The check of the kind that [plot] makes before anything is drawn:
    the kind must be known, and a kind for data frames needs one. *)
Definition check_kind (o : obj) (kind : string) : res string :=
  let kind := kind_alias kind in
  if decide (kind ∈ all_kinds) then
    if decide (kind ∈ dataframe_kinds ∧ is_frame o = false)
    then Raise (PlotKindError kind)
    else Ok kind
  else Raise (PlotKindError kind).

(** [o.to_csv(path, index=False)]: a header line and one record per row,
    the index is not written.  Fields are kept as values, not as text. *)
Definition to_csv (o : obj) : File :=
  match o with
  | ODataFrame df =>
      CsvFile (column_names df)
              ((λ ir : Z * row, (λ c, ir.2 !! c) <$> column_names df)
                 <$> df_rows df)
  | OSeries s =>
      CsvFile [default "0" (s_name s)]
              ((λ lv : Z * cell, [lv.2]) <$> s_items s)
  end.

End with_engine.

End Pandas.

Import Pandas.

(** ** The store and the monad of the stages *)

(** Tables are objects in a store and the stages pass references to them,
    so that an update in place is seen through every reference.  The world
    also has the files and the current figure of the plotting library. *)
Record World := mkWorld {
  heap : gmap positive obj;
  files : gmap string File;
  gcf : option Figure
}.

Global Instance World_eq_dec : EqDecision World.
Proof. solve_decision. Defined.

(** A computation ends with a value or an exception; the world it leaves
    behind is there in both cases. *)
Definition M (A : Type) : Type := World → res A * World.

Global Instance M_ret : MRet M := λ A a w, (Ok a, w).

Global Instance M_bind : MBind M := λ A B k m w,
  match m w with
  | (Ok a, w') => k a w'
  | (Raise e, w') => (Raise e, w')
  end.

Definition lift {A} (r : res A) : M A := λ w, (r, w).

Definition set_heap (h : gmap positive obj) (w : World) : World :=
  {| heap := h; files := files w; gcf := gcf w |}.

(** A new object, at a location the store does not use. *)
Definition alloc (o : obj) : M positive :=
  λ w, let l := fresh (dom (heap w)) in (Ok l, set_heap (<[l := o]> (heap w)) w).

Definition read (l : positive) : M obj :=
  λ w, match heap w !! l with
       | Some o => (Ok o, w)
       | None => (Raise WrongObject, w)
       end.

Definition read_frame (l : positive) : M DataFrame :=
  o ← read l;
  match o with
  | ODataFrame df => mret df
  | OSeries _ => lift (Raise WrongObject)
  end.

Definition write (l : positive) (o : obj) : M unit :=
  λ w, (Ok tt, set_heap (<[l := o]> (heap w)) w).

Definition read_file (path : string) : M File :=
  λ w, match files w !! path with
       | Some f => (Ok f, w)
       | None => (Raise (FileNotFoundError path), w)
       end.

Definition write_file (path : string) (f : File) : M unit :=
  λ w, (Ok tt, {| heap := heap w; files := <[path := f]> (files w);
                  gcf := gcf w |}).

Definition blank_figure : Figure := {| fig_size := None; fig_charts := [] |}.

(** [plt.savefig(path)]: the current figure, a blank one when there is
    none yet, goes to the file. *)
Definition savefig (path : string) : M unit :=
  λ w, let fig := default blank_figure (gcf w) in
       (Ok tt, {| heap := heap w; files := <[path := ImageFile fig]> (files w);
                  gcf := Some fig |}).

(** A method that returns a new table: [data.f()]. *)
Definition method (f : DataFrame → DataFrame) (data : positive) : M positive :=
  df ← read_frame data;
  alloc (ODataFrame (f df)).

(** ** The stages *)

Section stages.
Context `{Engine}.

Definition call_backend (o : obj) (kind : string) (figsize : Z * Z)
    (title : string) : M unit :=
  λ w, let (fig, drawn) := backend_plot (gcf w) o kind figsize title in
       (if drawn then Ok tt else Raise BackendError,
        {| heap := heap w; files := files w; gcf := fig |}).

(** [o.plot(kind=..., figsize=..., title=...)] *)
Definition plot (o : obj) (kind : string) (figsize : Z * Z) (title : string)
    : M unit :=
  kind ← lift (check_kind o kind);
  call_backend o kind figsize title.

(** [return pd.read_csv(path)] *)
Definition load_data (path : string) : M positive :=
  f ← read_file path;
  match read_csv_file f with
  | Some df => alloc (ODataFrame df)
  | None => lift (Raise ParserError)
  end.

(** [data = data.drop_duplicates(); data = data.dropna();
     data = data.reset_index(drop=True); return data] *)
Definition data_cleaning (data : positive) : M positive :=
  data ← method drop_duplicates data;
  data ← method dropna data;
  data ← method reset_index data;
  mret data.

(** [data = data.astype(dtype=types_dict);
     data["Date"] = pd.to_datetime(data["Date"]); return data]:
    the assignment is to the table that [astype] has made. *)
Definition convert_dtypes (data : positive) (types_dict : list (string * string))
    : M positive :=
  df ← read_frame data;
  casted ← lift (astype df types_dict);
  data ← alloc (ODataFrame casted);
  df ← read_frame data;
  date ← lift (getitem df "Date");
  date ← lift (to_datetime date);
  df ← read_frame data;
  write data (ODataFrame (setitem df "Date" date));;
  mret data.

(** [data["month"] = data["Date"].dt.month;
     new_df = data.groupby("month")["Units Sold"].mean(); return new_df]:
    the assignment is to the table of the caller. *)
Definition data_analysis (data : positive) : M positive :=
  df ← read_frame data;
  date ← lift (getitem df "Date");
  month ← lift (dt_month date);
  df ← read_frame data;
  write data (ODataFrame (setitem df "month" month));;
  df ← read_frame data;
  new_df ← lift (groupby_mean df "month" "Units Sold");
  alloc (OSeries new_df).

(** [new_df.plot(kind=vis_type, figsize=(10, 5), title=...);
     plt.savefig("average_units_sold_by_month.png"); return new_df] *)
Definition data_visualization (new_df : positive) (vis_type : string)
    : M positive :=
  o ← read new_df;
  plot o vis_type (10, 5)%Z "Average Units Sold by Month";;
  savefig "average_units_sold_by_month.png";;
  mret new_df.

(** [df.to_csv(filename, index=False); return filename] *)
Definition save_to_csv (df : positive) (filename : string) : M string :=
  o ← read df;
  write_file filename (to_csv o);;
  mret filename.

(** The flow: the six stages, one after the other. *)
Definition run_pipeline (path : string) : M unit :=
  df ← load_data path;
  df_cleaned ← data_cleaning df;
  df_converted ← convert_dtypes df_cleaned
    [("Product Category", "str"); ("Product Name", "str")];
  analysis_result ← data_analysis df_converted;
  data_visualization analysis_result "line";;
  save_to_csv analysis_result "average_units_sold_by_month.csv";;
  mret tt.

End stages.

(** ** The vocabulary of the properties *)

(** No row of the list agrees with a later one on all columns. *)
Fixpoint distinct_rows (cols : list string) (l : list row) : Prop :=
  match l with
  | [] => True
  | r :: l' => (∀ r', r' ∈ l' → ¬ same_row cols r r') ∧ distinct_rows cols l'
  end.

Definition Qc_sum (vs : list Qc) : Qc := foldr Qcplus 0%Qc vs.

(** The values that one pass adds to the group [lab]. *)
Definition group_values (lab : nat) (l : list (option nat * option Qc))
    : list Qc :=
  omap (λ lv : option nat * option Qc,
          if decide (lv.1 = Some lab) then lv.2 else None) l.

(** The month of the date of a row. *)
Definition month_key (r : row) : option Z :=
  match r !! "Date" with
  | Some (VDate t) => Some (ts_month t)
  | _ => None
  end.

(** A row with its month. *)
Definition add_month (r : row) : row :=
  partial_alter (λ _, month_of (r !! "Date")) "month" r.


Definition arithmetic_mean (vs : list Qc) : Qc :=
  (Qc_sum vs / Q2Qc (inject_Z (Z.of_nat (length vs))))%Qc.

Definition rows_in_month (m : Z) (rows : list row) : list row :=
  filter (λ r, month_key r = Some m) rows.


(** The keys of the aggregate of a table. *)
Definition month_keys (rows : list row) : list Z :=
  sorted_unique (omap (key_of "month") (add_month <$> rows)).


(** A value of a temporal column: a date, or the missing date. *)
Definition temporal (v : cell) : Prop :=
  match v with
  | None | Some (VDate _) => True
  | Some _ => False
  end.

(** The kinds of chart a series can be drawn as. *)
Definition chart_kinds : list string :=
  ["line"; "bar"; "barh"; "kde"; "density"; "area"; "hist"; "box"; "pie"].

(** The name the specification gives to the exception for a kind that is
    not one of them. *)
Definition UnsupportedChartKindError (e : exn) : Prop :=
  ∃ kind, e = PlotKindError kind.

(** The units sold that are there in the rows of a month. *)
Definition present_units (m : Z) (rows : list row) : list Qc :=
  omap (λ r : row, r !! "Units Sold" ≫= to_float) (rows_in_month m rows).

(** The mean of the values that are there; the missing value when none
    is. *)
Definition mean_cell (vs : list Qc) : cell :=
  match vs with
  | [] => None
  | _ => Some (VFloat (arithmetic_mean vs))
  end.

(** The aggregate of a table, as a function of its rows. *)
Definition monthly_means (rows : list row) : list (Z * cell) :=
  (λ m, (m, mean_cell (present_units m rows))) <$> month_keys rows.

(** A table is kept by an operation outside some columns when its column
    names and its index are the same, and so are the type and the values
    of every other column. *)
Definition kept_outside (cs : list string) (df out : DataFrame) : Prop :=
  column_names out = column_names df
  ∧ df_index out = df_index df
  ∧ ∀ c, c ∉ cs → column_dtype out c = column_dtype df c
                  ∧ column_values out c = column_values df c.


(** The exceptions that the flow can end with. *)
Definition flow_exn (e : exn) : Prop :=
  match e with
  | FileNotFoundError _ | ParserError | KeyError _ | TypeError | CastError _
  | DateParseError | BackendError => True
  | AttributeError | PlotKindError _ | WrongObject => False
  end.

(** ** A small engine for closed examples

    It reads ISO dates ([YYYY-MM-DD]), casts strings and integers to
    strings, draws every chart, and refuses everything else. *)

Module Demo.

Definition digit (a : ascii) : option Z :=
  let n := Z.of_nat (nat_of_ascii a) in
  if decide (48 ≤ n ≤ 57)%Z then Some (n - 48)%Z else None.

Fixpoint number (s : string) (acc : Z) : option Z :=
  match s with
  | EmptyString => Some acc
  | String a s' => d ← digit a; number s' (10 * acc + d)%Z
  end.

Definition parse_iso (s : string) : option Timestamp :=
  if decide (String.length s = 10%nat ∧ String.get 4 s = Some "-"%char
             ∧ String.get 7 s = Some "-"%char) then
    y ← number (substring 0 4 s) 0;
    m ← number (substring 5 2 s) 0;
    d ← number (substring 8 2 s) 0;
    if decide (1 ≤ m ≤ 12 ∧ 1 ≤ d ≤ 31)%Z then Some (mkTimestamp y m d 0)
    else None
  else None.

Definition parse_cell (v : cell) : option (option Timestamp) :=
  match v with
  | None => Some None
  | Some (VDate t) => Some (Some t)
  | Some (VStr s) => Some <$> parse_iso s
  | Some _ => None
  end.

Definition str_cell (v : cell) : option cell :=
  match v with
  | Some (VStr s) => Some (Some (VStr s))
  | Some (VInt z) => Some (Some (VStr (pretty z)))
  | _ => None
  end.

Definition dtype_of_name (ty : string) : option dtype :=
  if decide (ty = "str") then Some dt_object
  else if decide (ty = "int64") then Some dt_int
  else if decide (ty = "float64") then Some dt_float
  else None.

Definition is_int (v : cell) : bool :=
  match v with Some (VInt _) => true | _ => false end.

Definition is_number_or_missing (v : cell) : bool :=
  match v with Some (VStr _) | Some (VDate _) => false | _ => true end.

Definition infer_dtype (vs : list cell) : dtype :=
  if forallb is_int vs then dt_int
  else if forallb is_number_or_missing vs then dt_float
  else dt_object.

(** A file whose header has distinct names becomes a frame with the
    default index; the type of a column is read off its values. *)
Definition frame_of_file (f : File) : option DataFrame :=
  match f with
  | CsvFile header records =>
      let rows :=
        imap (λ i (fields : list cell),
                (Z.of_nat i,
                 list_to_map (omap (λ cv : string * cell, pair cv.1 <$> cv.2)
                                   (zip header fields)) : row)) records in
      Some {| df_columns :=
                (λ c, (c, infer_dtype ((λ ir : Z * row, ir.2 !! c) <$> rows)))
                  <$> header;
              df_rows := rows |}
  | ImageFile _ => None
  end.

(** A series is drawn on the current figure when there is one; a frame,
    and a series when there is none, on a new figure of the size asked
    for. *)
Definition draw (current : option Figure) (o : obj) (kind : string)
    (figsize : Z * Z) (title : string) : option Figure * bool :=
  let chart := {| chart_kind := kind; chart_title := title; chart_data := o |} in
  match current, o with
  | Some fig, OSeries _ =>
      (Some {| fig_size := fig_size fig; fig_charts := fig_charts fig ++ [chart] |},
       true)
  | _, _ => (Some {| fig_size := Some figsize; fig_charts := [chart] |}, true)
  end.

Global Instance engine : Engine := {|
  read_csv_file := frame_of_file;
  pandas_dtype := dtype_of_name;
  astype_values ty _ vs :=
    if decide (ty = "str") then mapM str_cell vs else None;
  to_datetime_values _ vs := mapM parse_cell vs;
  mean_other _ _ := None;
  backend_plot := draw
|}.

Definition date (y m d : Z) : scalar := VDate (mkTimestamp y m d 0).

(** The three sales of the worked example. *)
Definition sales : DataFrame :=
  {| df_columns := [("Date", dt_datetime); ("Units Sold", dt_int)];
     df_rows :=
       [(0%Z, {["Date" := date 2023 1 5; "Units Sold" := VInt 10]});
        (1%Z, {["Date" := date 2023 1 20; "Units Sold" := VInt 20]});
        (2%Z, {["Date" := date 2023 2 1; "Units Sold" := VInt 30]})] |}.

(** Its aggregate. *)
Definition monthly : Series :=
  {| s_name := Some "Units Sold"; s_index_name := Some "month";
     s_dtype := dt_float;
     s_items := [(1%Z, Some (VFloat (Q2Qc 15)));
                 (2%Z, Some (VFloat (Q2Qc 30)))] |}.

(** The same means in other months. *)
Definition monthly_later : Series :=
  {| s_name := Some "Units Sold"; s_index_name := Some "month";
     s_dtype := dt_float;
     s_items := [(7%Z, Some (VFloat (Q2Qc 15)));
                 (8%Z, Some (VFloat (Q2Qc 30)))] |}.

(** Sales as they come from a file: dates as text, a row twice, a row
    without a product name. *)
Definition raw_sales : DataFrame :=
  {| df_columns := [("Date", dt_object); ("Product Name", dt_object);
                    ("Units Sold", dt_int)];
     df_rows :=
       [(0%Z, {["Date" := VStr "2023-01-05"; "Product Name" := VStr "pen";
                "Units Sold" := VInt 10]});
        (1%Z, {["Date" := VStr "2023-01-05"; "Product Name" := VStr "pen";
                "Units Sold" := VInt 10]});
        (2%Z, {["Date" := VStr "2023-01-20"; "Units Sold" := VInt 20]});
        (3%Z, {["Date" := VStr "2023-02-01"; "Product Name" := VStr "ink";
                "Units Sold" := VInt 30]})] |}.

(** A table without the units sold. *)
Definition dates_only : DataFrame :=
  {| df_columns := [("Date", dt_datetime)];
     df_rows := [(0%Z, {["Date" := date 2023 1 5]})] |}.

(** An input file: a sale twice, and a sale without a product name. *)
Definition sales_file : File :=
  CsvFile ["Date"; "Product Category"; "Product Name"; "Units Sold"]
    [[Some (VStr "2023-01-05"); Some (VStr "office"); Some (VStr "pen");
      Some (VInt 10)];
     [Some (VStr "2023-01-05"); Some (VStr "office"); Some (VStr "pen");
      Some (VInt 10)];
     [Some (VStr "2023-01-20"); Some (VStr "office"); Some (VStr "ink");
      Some (VInt 20)];
     [Some (VStr "2023-03-09"); Some (VStr "office"); None; Some (VInt 99)];
     [Some (VStr "2023-02-01"); Some (VStr "home"); Some (VStr "lamp");
      Some (VInt 30)]].

Definition disk : World :=
  {| heap := ∅; files := {["Online Sales Data.csv" := sales_file]};
     gcf := None |}.

Definition world_of (o : obj) : World :=
  {| heap := {[1%positive := o]}; files := ∅; gcf := None |}.




(** A table without dates. *)
Definition units_only : DataFrame :=
  {| df_columns := [("Units Sold", dt_int)];
     df_rows := [(0%Z, {["Units Sold" := VInt 10]})] |}.

End Demo.

(** ** Two facts about [filter] *)

Lemma filter_split_inv {A} (P : A → Prop) `{!∀ x, Decision (P x)}
    (l f1 : list A) x f2 :
  filter P l = f1 ++ x :: f2 →
  ∃ l1 l2, l = l1 ++ x :: l2 ∧ filter P l1 = f1 ∧ filter P l2 = f2.
Proof.
  revert f1. induction l as [|y l IH]; intros f1; [by destruct f1|].
  rewrite filter_cons. destruct (decide (P y)) as [Hy|Hy].
  - destruct f1 as [|z f1]; simpl; intros [= -> Heq].
    + by exists [], l.
    + destruct (IH _ Heq) as (l1 & l2 & -> & <- & <-).
      exists (z :: l1), l2. by rewrite filter_cons, decide_True.
  - intros Heq. destruct (IH _ Heq) as (l1 & l2 & -> & <- & <-).
    exists (y :: l1), l2. by rewrite filter_cons, decide_False.
Qed.

Lemma filter_all {A} (P : A → Prop) `{!∀ x, Decision (P x)} (l : list A) :
  (∀ x, x ∈ l → P x) → filter P l = l.
Proof.
  induction l as [|y l IH]; intros Hl; [done|].
  rewrite filter_cons, decide_True by (apply Hl; by left).
  f_equal. apply IH. intros x Hx. apply Hl. by right.
Qed.

(** ** Duplicate rows, missing values and the index *)

Section cleaning.
Variable cols : list string.

Lemma same_row_spec r1 r2 :
  same_row cols r1 r2 ↔ ∀ c, c ∈ cols → r1 !! c = r2 !! c.
Proof. unfold same_row. apply Forall_forall. Qed.

Lemma same_row_refl r : same_row cols r r.
Proof. apply same_row_spec. done. Qed.

Lemma same_row_sym r1 r2 : same_row cols r1 r2 → same_row cols r2 r1.
Proof. rewrite !same_row_spec. intros Heq c Hc. symmetry. auto. Qed.

Lemma complete_same_row r1 r2 :
  same_row cols r1 r2 → complete cols r1 → complete cols r2.
Proof.
  rewrite same_row_spec. unfold complete. rewrite !Forall_forall.
  intros Heq Hc c Hin. rewrite <-(Heq c Hin). auto.
Qed.

Lemma same_row_trans r1 r2 r3 :
  same_row cols r1 r2 → same_row cols r2 r3 → same_row cols r1 r3.
Proof.
  rewrite !same_row_spec. intros H12 H23 c Hc.
  rewrite (H12 c Hc). auto.
Qed.

Lemma distinct_rows_sublist l1 l2 :
  l1 `sublist_of` l2 → distinct_rows cols l2 → distinct_rows cols l1.
Proof.
  induction 1 as [|x l1 l2 Hsub IH|x l1 l2 Hsub IH]; simpl; [done| |].
  - intros [Hx Hd]. split; [|auto].
    intros r' Hr'. apply Hx. by eapply elem_of_sublist.
  - intros [_ Hd]. auto.
Qed.

Lemma distinct_rows_lookup l i j a b :
  distinct_rows cols l → l !! i = Some a → l !! j = Some b →
  same_row cols a b → i = j.
Proof.
  revert i j. induction l as [|r l IH]; intros i j Hd Hi Hj Hab; [done|].
  destruct Hd as [Hr Hd].
  destruct i as [|i], j as [|j]; simpl in *; simplify_eq.
  - done.
  - exfalso. eapply Hr; [|done]. by eapply list_elem_of_lookup_2.
  - exfalso. eapply Hr; [|by apply same_row_sym].
    by eapply list_elem_of_lookup_2.
  - f_equal. eauto.
Qed.

(** What [keep_first] keeps is new with respect to the rows seen. *)
Lemma keep_first_unseen seen rows ir :
  ir ∈ keep_first cols seen rows → ¬ Exists (same_row cols ir.2) seen.
Proof.
  revert seen. induction rows as [|x rows IH]; intros seen; simpl.
  - by intros ?%elem_of_nil.
  - case_decide as Hdup; [by apply IH|].
    intros [->|Hin]%elem_of_cons; [done|].
    intros Hex. apply (IH _ Hin). by apply Exists_cons_tl.
Qed.

Lemma keep_first_sublist seen rows :
  keep_first cols seen rows `sublist_of` rows.
Proof.
  revert seen. induction rows as [|x rows IH]; intros seen; simpl; [done|].
  case_decide; [by apply sublist_cons|by apply sublist_skip].
Qed.

Lemma keep_first_distinct seen rows :
  distinct_rows cols (keep_first cols seen rows).*2.
Proof.
  revert seen. induction rows as [|x rows IH]; intros seen; simpl; [done|].
  case_decide as Hdup; [done|]. simpl. split; [|done].
  intros r' [ir [-> Hin]]%list_elem_of_fmap Hsame.
  apply (keep_first_unseen _ _ _ Hin).
  apply Exists_cons_hd. by apply same_row_sym.
Qed.

(** Every row has a copy among the rows seen or among the rows kept. *)
Lemma keep_first_covers seen rows ir :
  ir ∈ rows →
  Exists (same_row cols ir.2) seen
  ∨ ∃ k, k ∈ keep_first cols seen rows ∧ same_row cols ir.2 k.2.
Proof.
  revert seen. induction rows as [|x rows IH]; intros seen; simpl.
  - by intros ?%elem_of_nil.
  - intros [->|Hin]%elem_of_cons; case_decide as Hdup.
    + by left.
    + right. exists x. split; [by left|apply same_row_refl].
    + by apply IH.
    + destruct (IH (x.2 :: seen) Hin) as [Hex|(k & Hk & Hsame)].
      * apply Exists_cons in Hex as [Hx|Hex]; [|by left].
        right. exists x. split; [by left|done].
      * right. exists k. split; [by right|done].
Qed.

(** A row that is kept is the first of its kind: the rows kept before it
    are what the rows before it give, and none of those is a copy of it. *)
Lemma keep_first_split seen rows o1 a o2 :
  keep_first cols seen rows = o1 ++ a :: o2 →
  ∃ l1 l2, rows = l1 ++ a :: l2 ∧ keep_first cols seen l1 = o1
           ∧ ∀ y, y ∈ l1 → ¬ same_row cols y.2 a.2.
Proof.
  revert seen o1. induction rows as [|x rows IH]; intros seen o1; simpl.
  - by destruct o1.
  - case_decide as Hdup.
    + intros Heq. destruct (IH _ _ Heq) as (l1 & l2 & -> & Hl1 & Hfirst).
      exists (x :: l1), l2. split_and!; [done|simpl; by rewrite decide_True|].
      intros y [->|Hy]%elem_of_cons; [|by apply Hfirst].
      intros Hsame. apply (keep_first_unseen seen (l1 ++ a :: l2) a).
      { rewrite Heq. set_solver. }
      eapply Exists_impl; [exact Hdup|]. simpl. intros s Hs.
      eapply same_row_trans; [|exact Hs]. by apply same_row_sym.
    + destruct o1 as [|o o1]; simpl; intros [= -> Heq].
      * exists [], rows. split_and!; [done..|]. by intros y ?%elem_of_nil.
      * destruct (IH _ _ Heq) as (l1 & l2 & -> & Hl1 & Hfirst).
        exists (o :: l1), l2.
        split_and!; [done|simpl; by rewrite decide_False, Hl1|].
        intros y [->|Hy]%elem_of_cons; [|by apply Hfirst].
        intros Hsame.
        apply (keep_first_unseen (o.2 :: seen) (l1 ++ a :: l2) a).
        { rewrite Heq. set_solver. }
        apply Exists_cons_hd. by apply same_row_sym.
Qed.

(** Nothing is dropped from rows that are already distinct. *)
Lemma keep_first_id seen rows :
  distinct_rows cols rows.*2 →
  (∀ ir, ir ∈ rows → ¬ Exists (same_row cols ir.2) seen) →
  keep_first cols seen rows = rows.
Proof.
  revert seen. induction rows as [|x rows IH]; intros seen; simpl; [done|].
  intros [Hx Hd] Hseen. rewrite decide_False by (apply Hseen; by left).
  f_equal. apply IH; [done|].
  intros ir Hir [Hsame|Hex]%Exists_cons.
  - apply (Hx ir.2); [by apply list_elem_of_fmap_2|by apply same_row_sym].
  - apply (Hseen ir); [by right|done].
Qed.

End cleaning.

(** ** Running the stages *)

Lemma bind_run {A B} (m : M A) (k : A → M B) w :
  (m ≫= k) w = match m w with
               | (Ok a, w') => k a w'
               | (Raise e, w') => (Raise e, w')
               end.
Proof. reflexivity. Qed.

Lemma bind_ok {A B} (m : M A) (k : A → M B) w a w' :
  m w = (Ok a, w') → (m ≫= k) w = k a w'.
Proof. intros Hm. by rewrite bind_run, Hm. Qed.

Lemma bind_raise {A B} (m : M A) (k : A → M B) w e w' :
  m w = (Raise e, w') → (m ≫= k) w = (Raise e, w').
Proof. intros Hm. by rewrite bind_run, Hm. Qed.

Lemma read_run w l o : heap w !! l = Some o → read l w = (Ok o, w).
Proof. intros Hl. unfold read. by rewrite Hl. Qed.

Lemma read_frame_run w l df :
  heap w !! l = Some (ODataFrame df) → read_frame l w = (Ok df, w).
Proof.
  intros Hl. unfold read_frame. by rewrite (bind_ok _ _ _ _ _ (read_run _ _ _ Hl)).
Qed.

Lemma fresh_heap (h : gmap positive obj) : h !! fresh (dom h) = None.
Proof. apply not_elem_of_dom, is_fresh. Qed.

Lemma heap_alloc_subseteq (h : gmap positive obj) o :
  h ⊆ <[fresh (dom h) := o]> h.
Proof. apply insert_subseteq, fresh_heap. Qed.

Lemma method_run f w data df :
  heap w !! data = Some (ODataFrame df) →
  method f data w
  = (Ok (fresh (dom (heap w))),
     set_heap (<[fresh (dom (heap w)) := ODataFrame (f df)]> (heap w)) w).
Proof.
  intros Hl. unfold method.
  by rewrite (bind_ok _ _ _ _ _ (read_frame_run _ _ _ Hl)).
Qed.

(** The cleaning stage makes three new tables and returns the last one;
    the tables that were there are left as they were. *)
Lemma data_cleaning_run w data df :
  heap w !! data = Some (ODataFrame df) →
  ∃ l w',
    data_cleaning data w = (Ok l, w')
    ∧ heap w' !! l = Some (ODataFrame (reset_index (dropna (drop_duplicates df))))
    ∧ heap w ⊆ heap w' ∧ files w' = files w ∧ gcf w' = gcf w.
Proof.
  intros Hl. unfold data_cleaning.
  rewrite (bind_ok _ _ _ _ _ (method_run _ _ _ _ Hl)).
  set (w1 := set_heap _ w).
  assert (heap w1 !! fresh (dom (heap w)) = Some (ODataFrame (drop_duplicates df)))
    as H1 by apply lookup_insert_eq.
  rewrite (bind_ok _ _ _ _ _ (method_run _ _ _ _ H1)).
  set (w2 := set_heap _ w1).
  assert (heap w2 !! fresh (dom (heap w1))
          = Some (ODataFrame (dropna (drop_duplicates df))))
    as H2 by apply lookup_insert_eq.
  rewrite (bind_ok _ _ _ _ _ (method_run _ _ _ _ H2)).
  eexists _, _. split; [reflexivity|]. simpl.
  split; [apply lookup_insert_eq|]. split; [|done].
  etrans; [apply heap_alloc_subseteq|].
  etrans; [apply heap_alloc_subseteq|]. apply heap_alloc_subseteq.
Qed.

(** ** The cleaned table *)

Lemma DataFrame_eta df :
  {| df_columns := df_columns df; df_rows := df_rows df |} = df.
Proof. by destruct df. Qed.

Section cleaned.
Variable df : DataFrame.
Let out := reset_index (dropna (drop_duplicates df)).
Let cols := column_names df.

Lemma cleaned_columns : df_columns out = df_columns df.
Proof. reflexivity. Qed.

Lemma cleaned_rows :
  rows_of out
  = (filter (λ ir : Z * row, complete cols ir.2)
            (keep_first cols [] (df_rows df))).*2.
Proof.
  unfold rows_of, out, reset_index; simpl.
  rewrite fmap_imap. apply imap_const.
Qed.

Lemma cleaned_index :
  df_index out = (λ i, Z.of_nat i) <$> seq 0 (length (df_rows out)).
Proof.
  unfold df_index, out, reset_index; simpl.
  rewrite fmap_imap, length_imap.
  etrans; [|apply (imap_seq_0 _ (λ i, Z.of_nat i))].
  by apply imap_ext.
Qed.

Lemma cleaned_distinct : distinct_rows cols (rows_of out).
Proof.
  rewrite cleaned_rows.
  eapply distinct_rows_sublist; [|apply (keep_first_distinct cols [] (df_rows df))].
  apply fmap_sublist, sublist_filter.
Qed.

Lemma cleaned_complete r : r ∈ rows_of out → complete cols r.
Proof.
  rewrite cleaned_rows. intros [ir [-> Hin]]%list_elem_of_fmap.
  by apply list_elem_of_filter in Hin as [? _].
Qed.

(** A kept row stands where it first occurs: no row before it is a copy of
    it, and the rows kept before it are found before it. *)
Lemma cleaned_first o1 a o2 :
  rows_of out = o1 ++ a :: o2 →
  ∃ l1 l2, rows_of df = l1 ++ a :: l2
           ∧ (∀ y, y ∈ l1 → ¬ same_row cols y a)
           ∧ (∀ o, o ∈ o1 → o ∈ l1).
Proof.
  rewrite cleaned_rows.
  intros (f1 & f2' & -> & Hf2 & Hf)%fmap_app_inv.
  symmetry in Hf2. apply fmap_cons_inv in Hf2 as (ia & f2 & -> & -> & ->).
  apply filter_split_inv in Hf as (k1 & k2 & Hk & <- & <-).
  apply keep_first_split in Hk as (l1 & l2 & Hrows & <- & Hfirst).
  exists l1.*2, l2.*2. unfold rows_of. rewrite Hrows, fmap_app, fmap_cons.
  split_and!; [done| |].
  - intros y [iy [-> Hy]]%list_elem_of_fmap. by apply Hfirst.
  - intros o [io [-> Ho]]%list_elem_of_fmap.
    apply list_elem_of_fmap_2. apply list_elem_of_filter in Ho as [_ Ho].
    eapply elem_of_sublist; [exact Ho|apply keep_first_sublist].
Qed.

(** Every row without a missing value has its copy in the result. *)
Lemma cleaned_covers y :
  y ∈ rows_of df → complete cols y →
  ∃ o, o ∈ rows_of out ∧ same_row cols y o.
Proof.
  intros [iy [-> Hy]]%list_elem_of_fmap Hc.
  destruct (keep_first_covers cols [] _ _ Hy) as [Hex|(k & Hk & Hsame)].
  { by apply Exists_nil in Hex. }
  exists k.2. split; [|done]. rewrite cleaned_rows.
  apply list_elem_of_fmap_2, list_elem_of_filter. split; [|done].
  by eapply complete_same_row.
Qed.

(** Cleaning a cleaned table changes nothing. *)
Lemma cleaned_idempotent :
  reset_index (dropna (drop_duplicates out)) = out.
Proof.
  assert (keep_first cols [] (df_rows out) = df_rows out) as Hkeep.
  { apply keep_first_id; [apply cleaned_distinct|].
    intros ir _ Hex. by apply Exists_nil in Hex. }
  assert (filter (λ ir : Z * row, complete cols ir.2) (df_rows out) = df_rows out)
    as Hfilter.
  { apply filter_all. intros ir Hir. apply cleaned_complete.
    by apply list_elem_of_fmap_2. }
  assert (drop_duplicates out = out) as ->.
  { unfold drop_duplicates. change (column_names out) with cols.
    rewrite Hkeep. apply DataFrame_eta. }
  assert (dropna out = out) as ->.
  { unfold dropna. change (column_names out) with cols.
    rewrite Hfilter. apply DataFrame_eta. }
  unfold reset_index at 1. rewrite <-(DataFrame_eta out) at 3. f_equal.
  apply list_eq. intros i. rewrite list_lookup_imap.
  unfold out, reset_index. simpl.
  rewrite list_lookup_imap. by destruct (_ !! i).
Qed.

End cleaned.

(** C2. Whatever table the cleaning stage is given, the table it returns
    has the columns of its input; no two of its rows agree on all columns;
    none of its rows has a missing value; each of its rows stands where it
    first occurs in the input (no earlier input row is a copy of it, and
    the rows kept before it are input rows before it); every input row
    without a missing value has its copy in it; its index is 0, 1, ...,
    count-1; and an input without rows gives a table without rows. *)
Theorem data_cleaning_invariant (w : World) (data : positive) (df : DataFrame) :
  heap w !! data = Some (ODataFrame df) →
  ∃ l w' out,
    data_cleaning data w = (Ok l, w')
    ∧ heap w' !! l = Some (ODataFrame out)
    ∧ df_columns out = df_columns df
    ∧ (∀ i j a b, rows_of out !! i = Some a → rows_of out !! j = Some b →
                  same_row (column_names out) a b → i = j)
    ∧ (∀ a c, a ∈ rows_of out → c ∈ column_names out → is_Some (a !! c))
    ∧ (∀ o1 a o2, rows_of out = o1 ++ a :: o2 →
         ∃ l1 l2, rows_of df = l1 ++ a :: l2
                  ∧ (∀ y, y ∈ l1 → ¬ same_row (column_names df) y a)
                  ∧ (∀ o, o ∈ o1 → o ∈ l1))
    ∧ (∀ y, y ∈ rows_of df → complete (column_names df) y →
         ∃ o, o ∈ rows_of out ∧ same_row (column_names df) y o)
    ∧ df_index out = (λ i, Z.of_nat i) <$> seq 0 (length (df_rows out))
    ∧ (df_rows df = [] → df_rows out = []).
Proof.
  intros Hdata.
  destruct (data_cleaning_run _ _ _ Hdata) as (l & w' & Hrun & Hl & _).
  exists l, w', (reset_index (dropna (drop_duplicates df))).
  split_and!; [done|done|done| | | | | |].
  - intros i j a b Hi Hj Hab.
    eapply distinct_rows_lookup; [apply cleaned_distinct|done..].
  - intros a c Ha Hc. apply cleaned_complete in Ha.
    unfold complete in Ha. rewrite Forall_forall in Ha. by apply Ha.
  - apply cleaned_first.
  - apply cleaned_covers.
  - apply cleaned_index.
  - unfold reset_index, dropna, drop_duplicates; simpl. by intros ->.
Qed.

(** C4. Cleaning is idempotent: the cleaning stage run on its own result
    returns a table equal to that result. *)
Theorem data_cleaning_idempotent (w : World) (data : positive) (df : DataFrame) :
  heap w !! data = Some (ODataFrame df) →
  ∃ l1 w1 l2 w2 out,
    data_cleaning data w = (Ok l1, w1)
    ∧ heap w1 !! l1 = Some (ODataFrame out)
    ∧ data_cleaning l1 w1 = (Ok l2, w2)
    ∧ heap w2 !! l2 = Some (ODataFrame out).
Proof.
  intros Hdata.
  destruct (data_cleaning_run _ _ _ Hdata) as (l1 & w1 & Hrun1 & Hl1 & _).
  destruct (data_cleaning_run _ _ _ Hl1) as (l2 & w2 & Hrun2 & Hl2 & _).
  exists l1, w1, l2, w2, (reset_index (dropna (drop_duplicates df))).
  split_and!; [done..|]. by rewrite Hl2, cleaned_idempotent.
Qed.

(** ** Group keys *)

Lemma elem_of_insert_key k l x : x ∈ insert_key k l ↔ x = k ∨ x ∈ l.
Proof.
  induction l as [|y l IH]; simpl.
  - rewrite list_elem_of_singleton, elem_of_nil. tauto.
  - destruct (decide (k < y)%Z); [by rewrite elem_of_cons|].
    destruct (decide (k = y)) as [->|]; rewrite !elem_of_cons;
      [|rewrite IH]; tauto.
Qed.

Lemma insert_key_sorted k l :
  StronglySorted Z.lt l → StronglySorted Z.lt (insert_key k l).
Proof.
  induction l as [|y l IH]; simpl; intros Hs.
  - repeat constructor.
  - apply StronglySorted_cons in Hs as [Hy Hs].
    repeat case_decide; subst.
    + apply StronglySorted_cons. split; [|by apply StronglySorted_cons].
      constructor; [done|]. eapply Forall_impl; [exact Hy|]. simpl. lia.
    + by apply StronglySorted_cons.
    + apply StronglySorted_cons. split; [|auto].
      apply Forall_forall. intros x [->|Hx]%elem_of_insert_key; [lia|].
      rewrite Forall_forall in Hy. auto.
Qed.

Lemma elem_of_sorted_unique ks x : x ∈ sorted_unique ks ↔ x ∈ ks.
Proof.
  unfold sorted_unique. induction ks as [|k ks IH]; simpl; [done|].
  rewrite elem_of_insert_key, IH, elem_of_cons. tauto.
Qed.

Lemma sorted_unique_sorted ks : StronglySorted Z.lt (sorted_unique ks).
Proof.
  unfold sorted_unique. induction ks as [|k ks IH]; simpl; [constructor|].
  by apply insert_key_sorted.
Qed.

Lemma StronglySorted_lt_NoDup (l : list Z) : StronglySorted Z.lt l → NoDup l.
Proof.
  induction 1 as [|x l Hs IH Hx]; constructor; [|done].
  intros Hin. rewrite Forall_forall in Hx. specialize (Hx x Hin). lia.
Qed.

Lemma StronglySorted_lt_sublist (l1 l2 : list Z) :
  l1 `sublist_of` l2 → StronglySorted Z.lt l2 → StronglySorted Z.lt l1.
Proof.
  induction 1 as [|x l1 l2 Hsub IH|x l1 l2 Hsub IH]; [done| |].
  - rewrite !StronglySorted_cons. intros [Hx Hs]. split; [|auto].
    rewrite Forall_forall in *. intros y Hy. apply Hx.
    by eapply elem_of_sublist.
  - rewrite StronglySorted_cons. intros [_ Hs]. auto.
Qed.

Lemma code_of_Some uniques k i :
  code_of uniques k = Some i → uniques !! i = Some k.
Proof.
  unfold code_of. destruct (list_find _ _) as [[j x]|] eqn:Hfind; [|done].
  intros [= ->]. by apply list_find_Some in Hfind as (Hi & -> & _).
Qed.

Lemma code_of_lookup uniques k i :
  NoDup uniques → uniques !! i = Some k → code_of uniques k = Some i.
Proof.
  intros Hnd Hi. unfold code_of.
  destruct (list_find_elem_of (λ x, x = k) uniques k) as [[j x] Hfind];
    [by eapply list_elem_of_lookup_2|done|].
  rewrite Hfind. simpl. f_equal.
  apply list_find_Some in Hfind as (Hj & -> & _).
  by eapply NoDup_lookup.
Qed.

(** ** Sums and counts per group *)

Lemma group_values_cons lab x l :
  group_values lab (x :: l)
  = match (if decide (x.1 = Some lab) then x.2 else None) with
    | Some v => v :: group_values lab l
    | None => group_values lab l
    end.
Proof. reflexivity. Qed.

Lemma foldl_group_add l acc lab :
  (foldl group_add acc l).1 !! lab
  = (λ s, s + Qc_sum (group_values lab l))%Qc <$> acc.1 !! lab
  ∧ (foldl group_add acc l).2 !! lab
    = (λ n, n + length (group_values lab l))%nat <$> acc.2 !! lab.
Proof.
  revert acc. induction l as [|x l IH]; intros acc.
  - simpl. split; destruct (_ !! lab); simpl; f_equal; first [ring|lia].
  - change (foldl group_add acc (x :: l))
      with (foldl group_add (group_add acc x) l).
    destruct (IH (group_add acc x)) as [-> ->]. clear IH.
    rewrite group_values_cons.
    generalize (group_values lab l). intros gv.
    destruct x as [[lab'|] [v|]]; simpl; try done.
    + rewrite !list_lookup_alter.
      destruct (decide (lab' = lab)) as [->|Hne].
      * rewrite decide_True by done. simpl.
        split; destruct (_ !! lab); simpl; f_equal; first [ring|lia].
      * by rewrite (decide_False (P := Some lab' = Some lab)) by congruence.
    + by case_decide.
Qed.

Lemma group_mean_lookup ngroups l lab :
  (lab < ngroups)%nat →
  group_mean ngroups l !! lab
  = Some match length (group_values lab l) with
         | O => None
         | S _ =>
             Some (VFloat (Qc_sum (group_values lab l)
                           / Q2Qc (inject_Z (Z.of_nat
                                               (length (group_values lab l)))))%Qc)
         end.
Proof.
  intros Hlab. unfold group_mean. rewrite lookup_zip_with.
  destruct (foldl_group_add l (replicate ngroups 0%Qc, replicate ngroups 0%nat) lab)
    as [-> ->].
  simpl. rewrite !lookup_replicate_2 by done. simpl.
  by rewrite Qcplus_0_l.
Qed.


(** ** Columns and their types *)

Lemma column_dtype_None df c : column_dtype df c = None ↔ c ∉ column_names df.
Proof.
  unfold column_dtype, column_names. rewrite fmap_None, list_find_None.
  rewrite Forall_forall, list_elem_of_fmap. split.
  - intros Hall (cd & -> & Hin). by apply (Hall cd).
  - intros Hnot cd Hin <-. apply Hnot. by exists cd.
Qed.

Lemma column_dtype_is_Some df c :
  is_Some (column_dtype df c) ↔ c ∈ column_names df.
Proof.
  rewrite <-not_eq_None_Some, column_dtype_None.
  split; [apply dec_stable|auto].
Qed.

Lemma list_find_set_dtype_eq c dt cols :
  ∃ i, list_find (λ cd : string * dtype, cd.1 = c) (set_dtype c dt cols)
       = Some (i, (c, dt)).
Proof.
  induction cols as [|cd cols [i IH]]; simpl.
  - exists 0%nat. by rewrite decide_True.
  - destruct (decide (cd.1 = c)) as [Heq|Hne]; simpl.
    + exists 0%nat. by rewrite decide_True.
    + rewrite decide_False by done. rewrite IH. by exists (S i).
Qed.

Lemma list_find_set_dtype_ne c c' dt cols :
  c' ≠ c →
  (λ p : nat * (string * dtype), p.2.2)
    <$> list_find (λ cd : string * dtype, cd.1 = c') (set_dtype c dt cols)
  = (λ p : nat * (string * dtype), p.2.2)
      <$> list_find (λ cd : string * dtype, cd.1 = c') cols.
Proof.
  intros Hne. induction cols as [|cd cols IH]; simpl.
  - by rewrite decide_False by (simpl; congruence).
  - destruct (decide (cd.1 = c)) as [Heq|Hcd]; simpl.
    + rewrite !decide_False by (simpl; congruence). done.
    + destruct (decide (cd.1 = c')); [done|].
      destruct (list_find _ (set_dtype c dt cols)), (list_find _ cols);
        simpl in *; congruence.
Qed.

Lemma column_dtype_setitem_eq df c s :
  column_dtype (setitem df c s) c = Some (s_dtype s).
Proof.
  unfold column_dtype, setitem; simpl.
  by destruct (list_find_set_dtype_eq c (s_dtype s) (df_columns df)) as [i ->].
Qed.

Lemma column_dtype_setitem_ne df c c' s :
  c' ≠ c → column_dtype (setitem df c s) c' = column_dtype df c'.
Proof. intros Hne. by apply list_find_set_dtype_ne. Qed.

(** ** The month column *)

Lemma key_of_add_month r : key_of "month" (add_month r) = month_key r.
Proof.
  unfold key_of, add_month, month_key. rewrite lookup_partial_alter_eq.
  by destruct (r !! "Date") as [[]|].
Qed.

Lemma add_month_lookup_ne r c : c ≠ "month" → add_month r !! c = r !! c.
Proof. intros Hne. unfold add_month. by rewrite lookup_partial_alter_ne. Qed.

Lemma setitem_month_rows df date month :
  getitem df "Date" = Ok date → dt_month date = Ok month →
  df_rows (setitem df "month" month) = prod_map id add_month <$> df_rows df.
Proof.
  unfold getitem. destruct (column_dtype df "Date") as [dt|]; [|done].
  intros [= <-]. unfold dt_month; simpl.
  destruct dt; try done. intros [= <-]. unfold setitem; simpl.
  apply list_eq. intros i.
  rewrite list_lookup_imap, !list_lookup_fmap.
  by destruct (df_rows df !! i) as [[lbl r]|].
Qed.

(** ** The aggregate *)

Lemma elem_of_month_keys rows m :
  m ∈ month_keys rows ↔ ∃ r, r ∈ rows ∧ month_key r = Some m.
Proof.
  unfold month_keys. rewrite elem_of_sorted_unique, list_elem_of_omap. split.
  - intros (r' & [r [-> Hr]]%list_elem_of_fmap & Hkey).
    exists r. by rewrite <-key_of_add_month.
  - intros (r & Hr & Hkey). exists (add_month r).
    split; [by apply list_elem_of_fmap_2|]. by rewrite key_of_add_month.
Qed.

(** What the pass over the rows adds to the group of a month. *)
Lemma group_values_months rows uniques lab m :
  NoDup uniques → uniques !! lab = Some m →
  group_values lab
    ((λ r : row, (key_of "month" r ≫= code_of uniques,
                  r !! "Units Sold" ≫= to_float)) <$> (add_month <$> rows))
  = omap (λ r : row, r !! "Units Sold" ≫= to_float) (rows_in_month m rows).
Proof.
  intros Hnd Hlab. unfold rows_in_month.
  induction rows as [|r rows IH]; [done|].
  rewrite filter_cons, !fmap_cons, group_values_cons, IH. simpl.
  rewrite key_of_add_month, add_month_lookup_ne by done.
  destruct (month_key r) as [m'|]; simpl.
  - destruct (decide (m' = m)) as [->|Hne].
    + rewrite (code_of_lookup _ _ _ Hnd Hlab).
      by rewrite !decide_True by done.
    + rewrite (decide_False (P := Some m' = Some m)) by congruence.
      rewrite decide_False; [done|].
      intros Hcode%code_of_Some. congruence.
  - done.
Qed.


Section analysis.
Context `{Engine}.

Lemma data_analysis_run w data df :
  heap w !! data = Some (ODataFrame df) →
  data_analysis data w
  = match getitem df "Date" with
    | Raise e => (Raise e, w)
    | Ok date =>
        match dt_month date with
        | Raise e => (Raise e, w)
        | Ok month =>
            let df' := setitem df "month" month in
            let w1 := set_heap (<[data := ODataFrame df']> (heap w)) w in
            match groupby_mean df' "month" "Units Sold" with
            | Raise e => (Raise e, w1)
            | Ok agg =>
                (Ok (fresh (dom (heap w1))),
                 set_heap (<[fresh (dom (heap w1)) := OSeries agg]> (heap w1)) w1)
            end
        end
    end.
Proof.
  intros Hdata. unfold data_analysis.
  rewrite (bind_ok _ _ _ _ _ (read_frame_run _ _ _ Hdata)).
  rewrite bind_run. unfold lift at 1.
  destruct (getitem df "Date") as [date|e]; [|done].
  rewrite bind_run. unfold lift at 1.
  destruct (dt_month date) as [month|e]; [|done].
  rewrite (bind_ok _ _ _ _ _ (read_frame_run _ _ _ Hdata)).
  rewrite bind_run. unfold write at 1.
  assert (heap (set_heap (<[data := ODataFrame (setitem df "month" month)]>
                            (heap w)) w) !! data
          = Some (ODataFrame (setitem df "month" month))) as Hdata'
    by apply lookup_insert_eq.
  rewrite (bind_ok _ _ _ _ _ (read_frame_run _ _ _ Hdata')).
  rewrite bind_run. unfold lift at 1.
  by destruct (groupby_mean _ _ _).
Qed.


Lemma fst_zip_sublist {A B} (l : list A) (k : list B) :
  (zip l k).*1 `sublist_of` l.
Proof.
  revert k. induction l as [|x l IH]; intros [|y k]; simpl;
    [done|done|apply sublist_nil_l|by apply sublist_skip].
Qed.

(** The keys of whatever [groupby_mean] returns are ascending. *)
Lemma groupby_mean_sorted df key col agg :
  groupby_mean df key col = Ok agg → StronglySorted Z.lt (s_items agg).*1.
Proof.
  unfold groupby_mean.
  destruct (column_dtype df key); [|done].
  destruct (column_dtype df col) as [dt|]; [|done].
  match goal with |- context [zip ?us _] => set (uniques := us) end.
  assert (∀ vs : list cell, StronglySorted Z.lt (zip uniques vs).*1) as Hs.
  { intros vs. eapply StronglySorted_lt_sublist; [apply fst_zip_sublist|].
    apply sorted_unique_sorted. }
  destruct dt; simpl; try (intros [= <-]; apply Hs);
    (destruct (mapM _ _); [intros [= <-]; apply Hs|done]).
Qed.

Lemma data_analysis_Ok_inv w data l w' :
  data_analysis data w = (Ok l, w') →
  ∃ df, heap w !! data = Some (ODataFrame df).
Proof.
  unfold data_analysis. rewrite bind_run. unfold read_frame at 1.
  rewrite bind_run. unfold read at 1.
  destruct (heap w !! data) as [[df|s]|]; [eauto|done..].
Qed.

End analysis.



(** C9. Whenever the aggregation stage returns, what it returns is a
    series whose keys are in ascending order. *)
Theorem data_analysis_keys_ascending `{Engine}
    (w : World) (data l : positive) (w' : World) :
  data_analysis data w = (Ok l, w') →
  ∃ agg, heap w' !! l = Some (OSeries agg)
         ∧ StronglySorted Z.lt (s_items agg).*1.
Proof.
  intros Hrun.
  destruct (data_analysis_Ok_inv _ _ _ _ Hrun) as [df Hdata].
  rewrite (data_analysis_run _ _ _ Hdata) in Hrun.
  destruct (getitem df "Date") as [date|]; [|done].
  destruct (dt_month date) as [month|]; [|done].
  cbv zeta in Hrun.
  destruct (groupby_mean _ _ _) as [agg|] eqn:Hagg; [|done].
  injection Hrun as <- <-. exists agg. simpl.
  split; [apply lookup_insert_eq|]. by eapply groupby_mean_sorted.
Qed.

(** ** Type normalisation *)

Section normalisation.
Context `{Engine}.

Lemma convert_dtypes_run w data types_dict df :
  heap w !! data = Some (ODataFrame df) →
  convert_dtypes data types_dict w
  = match astype df types_dict with
    | Raise e => (Raise e, w)
    | Ok casted =>
        let l := fresh (dom (heap w)) in
        let w1 := set_heap (<[l := ODataFrame casted]> (heap w)) w in
        match getitem casted "Date" with
        | Raise e => (Raise e, w1)
        | Ok date =>
            match to_datetime date with
            | Raise e => (Raise e, w1)
            | Ok parsed =>
                (Ok l,
                 set_heap (<[l := ODataFrame (setitem casted "Date" parsed)]>
                             (heap w1)) w1)
            end
        end
    end.
Proof.
  intros Hdata. unfold convert_dtypes.
  rewrite (bind_ok _ _ _ _ _ (read_frame_run _ _ _ Hdata)).
  rewrite bind_run. unfold lift at 1.
  destruct (astype df types_dict) as [casted|e]; [|done].
  rewrite bind_run. unfold alloc at 1. cbv zeta.
  set (l := fresh (dom (heap w))).
  set (w1 := set_heap _ w).
  assert (heap w1 !! l = Some (ODataFrame casted)) as Hl
    by apply lookup_insert_eq.
  rewrite (bind_ok _ _ _ _ _ (read_frame_run _ _ _ Hl)).
  rewrite bind_run. unfold lift at 1.
  destruct (getitem casted "Date") as [date|e]; [|done].
  rewrite bind_run. unfold lift at 1.
  destruct (to_datetime date) as [parsed|e]; [|done].
  by rewrite (bind_ok _ _ _ _ _ (read_frame_run _ _ _ Hl)).
Qed.


Lemma to_datetime_temporal s parsed :
  to_datetime s = Ok parsed →
  s_dtype parsed = dt_datetime ∧ ∀ lv, lv ∈ s_items parsed → temporal lv.2.
Proof.
  unfold to_datetime. destruct (to_datetime_values _ _) as [ts|]; [|done].
  intros [= <-]. split; [done|]. simpl.
  intros lv [i Hi]%list_elem_of_lookup.
  rewrite list_lookup_imap in Hi.
  destruct (s_items s !! i) as [lv'|]; [|done].
  injection Hi as <-. simpl. by destruct (ts !! i ≫= id).
Qed.

End normalisation.



(** ** The chart and the output file *)

Section visualization.
Context `{Engine}.

Lemma check_kind_series agg kind :
  check_kind (OSeries agg) kind
  = if decide (kind ∈ chart_kinds) then Ok (kind_alias kind)
    else Raise (PlotKindError (kind_alias kind)).
Proof.
  unfold check_kind. destruct (decide (kind ∈ chart_kinds)) as [Hin|Hnot].
  - assert (kind_alias kind ∈ all_kinds ∧ kind_alias kind ∉ dataframe_kinds)
      as [Hall Hframe].
    { unfold chart_kinds in Hin.
      repeat (apply elem_of_cons in Hin as [->|Hin]);
        [split; compute_done..|by apply elem_of_nil in Hin]. }
    rewrite decide_True by done. rewrite decide_False by tauto. done.
  - destruct (decide (kind_alias kind ∈ all_kinds)) as [Hall|Hall]; [|done].
    rewrite decide_True; [done|]. split; [|done].
    unfold kind_alias in *. destruct (decide (kind = "density")) as [->|_].
    { exfalso. apply Hnot. compute_done. }
    unfold all_kinds, common_kinds, series_kinds in Hall. simpl in Hall.
    repeat (apply elem_of_cons in Hall as [->|Hall]);
      try (exfalso; apply Hnot; compute_done);
      try compute_done.
    by apply elem_of_nil in Hall.
Qed.

Lemma data_visualization_run w new_df o vis_type :
  heap w !! new_df = Some o →
  data_visualization new_df vis_type w
  = match check_kind o vis_type with
    | Raise e => (Raise e, w)
    | Ok kind =>
        let drawn := backend_plot (gcf w) o kind (10, 5)%Z
                       "Average Units Sold by Month" in
        if drawn.2 then
          (Ok new_df,
           {| heap := heap w;
              files := <["average_units_sold_by_month.png"
                         := ImageFile (default blank_figure drawn.1)]>
                         (files w);
              gcf := Some (default blank_figure drawn.1) |})
        else
          (Raise BackendError,
           {| heap := heap w; files := files w; gcf := drawn.1 |})
    end.
Proof.
  intros Ho. unfold data_visualization.
  rewrite (bind_ok _ _ _ _ _ (read_run _ _ _ Ho)).
  rewrite bind_run. unfold plot. rewrite bind_run. unfold lift at 1.
  destruct (check_kind o vis_type) as [kind|e]; [|done].
  unfold call_backend. cbv zeta.
  by destruct (backend_plot _ _ _ _ _) as [fig []].
Qed.

Lemma save_to_csv_run w df o filename :
  heap w !! df = Some o →
  save_to_csv df filename w
  = (Ok filename,
     {| heap := heap w; files := <[filename := to_csv o]> (files w);
        gcf := gcf w |}).
Proof.
  intros Ho. unfold save_to_csv.
  by rewrite (bind_ok _ _ _ _ _ (read_run _ _ _ Ho)).
Qed.

End visualization.

(** C6. Given an aggregate and a kind of chart that a series can be drawn
    as (and that the plotting backend does draw), the visualisation stage
    returns the very aggregate it was given, and no table has changed. *)
Theorem data_visualization_returns_input `{Engine}
    (w : World) (new_df : positive) (agg : Series) (vis_type : string) :
  heap w !! new_df = Some (OSeries agg) →
  vis_type ∈ chart_kinds →
  (backend_plot (gcf w) (OSeries agg) (kind_alias vis_type) (10, 5)%Z
     "Average Units Sold by Month").2 = true →
  ∃ w', data_visualization new_df vis_type w = (Ok new_df, w')
        ∧ heap w' = heap w
        ∧ heap w' !! new_df = Some (OSeries agg).
Proof.
  intros Hagg Hkind Hdraws.
  rewrite (data_visualization_run _ _ _ _ Hagg), check_kind_series.
  rewrite decide_True by done. cbv zeta. rewrite Hdraws.
  eexists. split; [reflexivity|]. by split.
Qed.

(** C7. Given an aggregate, a kind outside the kinds a series can be
    drawn as makes the visualisation stage fail with the exception for an
    unsupported kind, and nothing is drawn or written; ["scatter"] is such
    a kind.  ["bar"] and ["line"] are accepted: with them the stage
    returns, or fails in the plotting backend, never with that
    exception. *)
Theorem data_visualization_chart_kinds `{Engine}
    (w : World) (new_df : positive) (agg : Series) :
  heap w !! new_df = Some (OSeries agg) →
  (∀ vis_type, vis_type ∉ chart_kinds →
     ∃ e, data_visualization new_df vis_type w = (Raise e, w)
          ∧ UnsupportedChartKindError e)
  ∧ ("scatter" ∉ chart_kinds)
  ∧ ("bar" ∈ chart_kinds) ∧ ("line" ∈ chart_kinds)
  ∧ (∀ vis_type, vis_type ∈ chart_kinds →
       ∀ res w', data_visualization new_df vis_type w = (res, w') →
                 res = Ok new_df ∨ res = Raise BackendError).
Proof.
  intros Hagg. split_and!.
  - intros vis_type Hkind.
    rewrite (data_visualization_run _ _ _ _ Hagg), check_kind_series.
    rewrite decide_False by done.
    eexists. split; [reflexivity|]. by eexists.
  - compute_done.
  - compute_done.
  - compute_done.
  - intros vis_type Hkind res w'.
    rewrite (data_visualization_run _ _ _ _ Hagg), check_kind_series.
    rewrite decide_True by done. cbv zeta.
    destruct (backend_plot _ _ _ _ _).2; intros [= <- <-]; auto.
Qed.

(** C3. The output file of the worked example: the persisting stage
    writes a header with the one name [Units Sold] and one field per
    record, the mean; the month, which is the index of the aggregate, is
    not written, so the same means in other months give the same file. *)
Theorem save_to_csv_omits_month :
  (∃ w', save_to_csv 1%positive "average_units_sold_by_month.csv"
           (Demo.world_of (OSeries Demo.monthly))
         = (Ok "average_units_sold_by_month.csv", w')
         ∧ files w' !! "average_units_sold_by_month.csv"
           = Some (CsvFile ["Units Sold"]
                     [[Some (VFloat (Q2Qc 15))]; [Some (VFloat (Q2Qc 30))]]))
  ∧ s_items Demo.monthly ≠ s_items Demo.monthly_later
  ∧ to_csv (OSeries Demo.monthly) = to_csv (OSeries Demo.monthly_later).
Proof.
  split_and!.
  - rewrite (save_to_csv_run _ _ (OSeries Demo.monthly)) by reflexivity.
    eexists. split; [reflexivity|]. simpl. by rewrite lookup_insert_eq.
  - discriminate.
  - reflexivity.
Qed.

(** ** Which tables a stage changes *)

Lemma setitem_index df c s : df_index (setitem df c s) = df_index df.
Proof.
  unfold df_index, setitem; simpl. rewrite fmap_imap.
  etrans; [|apply imap_const]. by apply imap_ext.
Qed.

Lemma setitem_column_values_ne df c c' s :
  c' ≠ c → column_values (setitem df c s) c' = column_values df c'.
Proof.
  intros Hne. unfold column_values, setitem; simpl. rewrite fmap_imap.
  etrans; [|apply imap_const]. apply imap_ext. intros i ir _. simpl.
  by rewrite lookup_partial_alter_ne.
Qed.


Lemma fresh_heap_ne (h : gmap positive obj) l o :
  h !! l = Some o → fresh (dom h) ≠ l.
Proof. intros Hl Heq. rewrite <-Heq, fresh_heap in Hl. done. Qed.


(** ** The properties at work on the examples *)

(** The whole flow on the example file: the copy of the first sale and the
    sale without a product name are dropped, the chart is a line chart,
    and the output file has the two means. *)
Lemma run_pipeline_example :
  (run_pipeline (H := Demo.engine) "Online Sales Data.csv" Demo.disk).1
  = Ok tt
  ∧ files (run_pipeline (H := Demo.engine) "Online Sales Data.csv"
             Demo.disk).2 !! "average_units_sold_by_month.csv"
    = Some (CsvFile ["Units Sold"]
              [[Some (VFloat (Q2Qc 15))]; [Some (VFloat (Q2Qc 30))]])
  ∧ (λ fig, chart_kind <$> fig_charts fig)
      <$> gcf (run_pipeline (H := Demo.engine)
                 "Online Sales Data.csv" Demo.disk).2
    = Some ["line"].
Proof.
  split_and!.
  - vm_compute. reflexivity.
  - apply (bool_decide_unpack _). vm_compute. exact I.
  - vm_compute. reflexivity.
Qed.


Lemma data_cleaning_invariant_witness :
  heap (Demo.world_of (ODataFrame Demo.raw_sales)) !! 1%positive
  = Some (ODataFrame Demo.raw_sales)
  ∧ ∃ l w' out,
      data_cleaning 1%positive (Demo.world_of (ODataFrame Demo.raw_sales))
      = (Ok l, w')
      ∧ heap w' !! l = Some (ODataFrame out)
      ∧ df_columns out = df_columns Demo.raw_sales
      ∧ (∀ i j a b, rows_of out !! i = Some a → rows_of out !! j = Some b →
                    same_row (column_names out) a b → i = j)
      ∧ (∀ a c, a ∈ rows_of out → c ∈ column_names out → is_Some (a !! c))
      ∧ (∀ o1 a o2, rows_of out = o1 ++ a :: o2 →
           ∃ l1 l2, rows_of Demo.raw_sales = l1 ++ a :: l2
                    ∧ (∀ y, y ∈ l1 →
                            ¬ same_row (column_names Demo.raw_sales) y a)
                    ∧ (∀ o, o ∈ o1 → o ∈ l1))
      ∧ (∀ y, y ∈ rows_of Demo.raw_sales →
              complete (column_names Demo.raw_sales) y →
              ∃ o, o ∈ rows_of out
                   ∧ same_row (column_names Demo.raw_sales) y o)
      ∧ df_index out = (λ i, Z.of_nat i) <$> seq 0 (length (df_rows out))
      ∧ (df_rows Demo.raw_sales = [] → df_rows out = []).
Proof.
  split; [reflexivity|].
  apply (data_cleaning_invariant
           (Demo.world_of (ODataFrame Demo.raw_sales)) 1%positive
           Demo.raw_sales).
  reflexivity.
Defined.

Lemma data_cleaning_idempotent_witness :
  heap (Demo.world_of (ODataFrame Demo.raw_sales)) !! 1%positive
  = Some (ODataFrame Demo.raw_sales)
  ∧ ∃ l1 w1 l2 w2 out,
      data_cleaning 1%positive (Demo.world_of (ODataFrame Demo.raw_sales))
      = (Ok l1, w1)
      ∧ heap w1 !! l1 = Some (ODataFrame out)
      ∧ data_cleaning l1 w1 = (Ok l2, w2)
      ∧ heap w2 !! l2 = Some (ODataFrame out).
Proof.
  split; [reflexivity|].
  apply (data_cleaning_idempotent
           (Demo.world_of (ODataFrame Demo.raw_sales)) 1%positive
           Demo.raw_sales).
  reflexivity.
Defined.


Lemma data_visualization_returns_input_witness :
  heap (Demo.world_of (OSeries Demo.monthly)) !! 1%positive
  = Some (OSeries Demo.monthly)
  ∧ "line" ∈ chart_kinds
  ∧ ∃ w', data_visualization (H := Demo.engine) 1%positive "line"
            (Demo.world_of (OSeries Demo.monthly)) = (Ok 1%positive, w')
          ∧ heap w' = heap (Demo.world_of (OSeries Demo.monthly))
          ∧ heap w' !! 1%positive = Some (OSeries Demo.monthly).
Proof.
  split; [reflexivity|]. split; [compute_done|].
  apply (data_visualization_returns_input (H := Demo.engine)
           (Demo.world_of (OSeries Demo.monthly)) 1%positive Demo.monthly
           "line").
  - reflexivity.
  - compute_done.
  - reflexivity.
Defined.

Lemma data_visualization_chart_kinds_witness :
  heap (Demo.world_of (OSeries Demo.monthly)) !! 1%positive
  = Some (OSeries Demo.monthly)
  ∧ ∃ e, data_visualization (H := Demo.engine) 1%positive "scatter"
           (Demo.world_of (OSeries Demo.monthly))
         = (Raise e, Demo.world_of (OSeries Demo.monthly))
         ∧ UnsupportedChartKindError e.
Proof.
  split; [reflexivity|].
  apply (proj1 (data_visualization_chart_kinds (H := Demo.engine)
                  (Demo.world_of (OSeries Demo.monthly)) 1%positive
                  Demo.monthly eq_refl)).
  compute_done.
Defined.


Lemma data_analysis_keys_ascending_witness :
  ∃ l w',
    data_analysis (H := Demo.engine) 1%positive
      (Demo.world_of (ODataFrame Demo.sales)) = (Ok l, w')
    ∧ ∃ agg, heap w' !! l = Some (OSeries agg)
             ∧ StronglySorted Z.lt (s_items agg).*1.
Proof.
  eexists _, _. split; [vm_compute; reflexivity|].
  apply (data_analysis_keys_ascending (H := Demo.engine)
           (Demo.world_of (ODataFrame Demo.sales)) 1%positive).
  vm_compute. reflexivity.
Defined.


(** ** The aggregate as a function of the rows *)

Lemma group_mean_months rows :
  zip (month_keys rows)
      (group_mean (length (month_keys rows))
         ((λ r : row, (key_of "month" r ≫= code_of (month_keys rows),
                       r !! "Units Sold" ≫= to_float))
            <$> (add_month <$> rows)))
  = monthly_means rows.
Proof.
  pose proof (StronglySorted_lt_NoDup _
                (sorted_unique_sorted
                   (omap (key_of "month") (add_month <$> rows)))) as Hnd.
  fold (month_keys rows) in Hnd.
  unfold monthly_means. apply list_eq. intros i.
  rewrite lookup_zip_with, list_lookup_fmap.
  destruct (month_keys rows !! i) as [m|] eqn:Hm; [|done]. simpl.
  rewrite group_mean_lookup by (by eapply lookup_lt_Some). simpl.
  rewrite (group_values_months _ _ _ _ Hnd Hm).
  fold (present_units m rows). unfold mean_cell, arithmetic_mean.
  by destruct (present_units m rows).
Qed.

Section aggregate.
Context `{Engine}.

(** The series that the aggregation makes of a table with dates and
    numbers. *)
Lemma groupby_mean_month_series df date month :
  getitem df "Date" = Ok date → dt_month date = Ok month →
  (column_dtype df "Units Sold" = Some dt_int
   ∨ column_dtype df "Units Sold" = Some dt_float) →
  groupby_mean (setitem df "month" month) "month" "Units Sold"
  = Ok {| s_name := Some "Units Sold"; s_index_name := Some "month";
          s_dtype := dt_float; s_items := monthly_means (rows_of df) |}.
Proof.
  intros Hdate Hmonth Hunits. unfold groupby_mean.
  rewrite column_dtype_setitem_eq, column_dtype_setitem_ne by done.
  rewrite (setitem_month_rows _ _ _ Hdate Hmonth).
  assert ((prod_map id add_month <$> df_rows df).*2 = add_month <$> rows_of df)
    as ->.
  { unfold rows_of. rewrite <-!list_fmap_compose. by apply list_fmap_ext. }
  fold (month_keys (rows_of df)).
  destruct Hunits as [-> | ->]; by rewrite group_mean_months.
Qed.

Lemma data_analysis_numeric_run w data df :
  heap w !! data = Some (ODataFrame df) →
  column_dtype df "Date" = Some dt_datetime →
  (column_dtype df "Units Sold" = Some dt_int
   ∨ column_dtype df "Units Sold" = Some dt_float) →
  ∃ l w',
    data_analysis data w = (Ok l, w')
    ∧ heap w' !! l
      = Some (OSeries {| s_name := Some "Units Sold";
                         s_index_name := Some "month"; s_dtype := dt_float;
                         s_items := monthly_means (rows_of df) |}).
Proof.
  intros Hdata Hdate Hdt.
  rewrite (data_analysis_run _ _ _ Hdata).
  destruct (getitem df "Date") as [date|] eqn:Hget;
    [|unfold getitem in Hget; by rewrite Hdate in Hget].
  assert (s_dtype date = dt_datetime) as Hsd.
  { unfold getitem in Hget. rewrite Hdate in Hget. by injection Hget as <-. }
  destruct (dt_month date) as [month|] eqn:Hmonth;
    [|unfold dt_month in Hmonth; by rewrite Hsd in Hmonth].
  cbv zeta. rewrite (groupby_mean_month_series _ _ _ Hget Hmonth Hdt).
  eexists _, _. split; [reflexivity|]. apply lookup_insert_eq.
Qed.

End aggregate.





Lemma elem_of_monthly_means rows m v :
  (m, v) ∈ monthly_means rows
  ↔ (∃ r, r ∈ rows ∧ month_key r = Some m)
    ∧ v = mean_cell (present_units m rows).
Proof.
  unfold monthly_means. rewrite list_elem_of_fmap, <-elem_of_month_keys.
  split.
  - by intros (m' & [= -> ->] & Hm').
  - intros [Hm ->]. by exists m.
Qed.



(** ** Bounds on the aggregate *)






Lemma length_sorted_unique ks : length (sorted_unique ks) ≤ length ks.
Proof.
  unfold sorted_unique. induction ks as [|k ks IH]; simpl; [done|].
  assert (∀ l, length (insert_key k l) ≤ S (length l)) as Hins.
  { induction l as [|x l IHl]; simpl; [lia|].
    repeat case_decide; simpl; lia. }
  etrans; [apply Hins|]. lia.
Qed.

Lemma length_omap_le {A B} (f : A → option B) (l : list A) :
  length (omap f l) ≤ length l.
Proof.
  induction l as [|x l IH]; [done|].
  change (omap f (x :: l))
    with (match f x with Some y => y :: omap f l | None => omap f l end).
  destruct (f x); simpl; lia.
Qed.

Lemma length_sorted_range (l : list Z) (a b : Z) :
  StronglySorted Z.lt l → Forall (λ x, a ≤ x ≤ b)%Z l →
  (Z.of_nat (length l) ≤ Z.max 0 (b - a + 1))%Z.
Proof.
  intros Hs. revert a. induction Hs as [|x l Hs IH Hx]; intros a Hr.
  - simpl. lia.
  - apply Forall_cons in Hr as [Hxr Hr].
    assert (Forall (λ y, x + 1 ≤ y ≤ b)%Z l) as Hr'.
    { rewrite Forall_forall in *. intros y Hy.
      specialize (Hx y Hy). specialize (Hr y Hy). lia. }
    specialize (IH _ Hr'). simpl length. lia.
Qed.

(** X4. The aggregate has at most one entry per row of the table; and
    when the months of the dates are months of the calendar, its keys are
    between 1 and 12 and it has at most twelve entries. *)
Theorem data_analysis_size `{Engine}
    (w : World) (data : positive) (df : DataFrame) :
  heap w !! data = Some (ODataFrame df) →
  column_dtype df "Date" = Some dt_datetime →
  (column_dtype df "Units Sold" = Some dt_int
   ∨ column_dtype df "Units Sold" = Some dt_float) →
  ∃ l w' agg,
    data_analysis data w = (Ok l, w')
    ∧ heap w' !! l = Some (OSeries agg)
    ∧ length (s_items agg) ≤ length (df_rows df)
    ∧ ((∀ (r : row) t, r ∈ rows_of df → r !! "Date" = Some (VDate t) →
                       (1 ≤ ts_month t ≤ 12)%Z) →
       length (s_items agg) ≤ 12
       ∧ ∀ m v, (m, v) ∈ s_items agg → (1 ≤ m ≤ 12)%Z).
Proof.
  intros Hdata Hdate Hdt.
  destruct (data_analysis_numeric_run _ _ _ Hdata Hdate Hdt)
    as (l & w' & Hrun & Hl).
  eexists l, w', _. split_and!; [done..| |]; simpl.
  - unfold monthly_means, month_keys. rewrite length_fmap.
    etrans; [apply length_sorted_unique|].
    etrans; [apply length_omap_le|]. unfold rows_of. by rewrite !length_fmap.
  - intros Hvalid.
    assert (Forall (λ m, 1 ≤ m ≤ 12)%Z (month_keys (rows_of df))) as Hrange.
    { apply Forall_forall. intros m (r & Hr & Hm)%elem_of_month_keys.
      unfold month_key in Hm.
      destruct (r !! "Date") as [[| | |t]|] eqn:Ht; try done.
      injection Hm as <-. eauto. }
    split.
    + unfold monthly_means. rewrite length_fmap.
      unfold month_keys in *.
      pose proof (length_sorted_range _ 1 12
                    (sorted_unique_sorted _) Hrange). lia.
    + intros m v [Hm _]%elem_of_monthly_means.
      rewrite Forall_forall in Hrange. by apply Hrange, elem_of_month_keys.
Qed.

(** ** What the aggregation does to its table *)

Lemma set_dtype_names c dt cols :
  (set_dtype c dt cols).*1
  = if decide (c ∈ cols.*1) then cols.*1 else cols.*1 ++ [c].
Proof.
  induction cols as [|cd cols IH].
  - destruct (decide (c ∈ ([] : list (string * dtype)).*1)) as [Hin|_];
      [by apply elem_of_nil in Hin|done].
  - cbn [set_dtype]. rewrite fmap_cons.
    destruct (decide (cd.1 = c)) as [<-|Hne].
    + rewrite decide_True by left. by rewrite fmap_cons.
    + rewrite fmap_cons, IH.
      destruct (decide (c ∈ cols.*1)) as [Hin|Hnot].
      * by rewrite decide_True by (by right).
      * rewrite decide_False; [done|].
        intros [?|?]%elem_of_cons; congruence.
Qed.

Section aggregation_effects.
Context `{Engine}.

Lemma data_analysis_temporal_run w data df :
  heap w !! data = Some (ODataFrame df) →
  column_dtype df "Date" = Some dt_datetime →
  ∃ date month,
    getitem df "Date" = Ok date ∧ dt_month date = Ok month
    ∧ data_analysis data w
      = match groupby_mean (setitem df "month" month) "month" "Units Sold" with
        | Raise e =>
            (Raise e,
             set_heap (<[data := ODataFrame (setitem df "month" month)]>
                         (heap w)) w)
        | Ok agg =>
            (Ok (fresh (dom (<[data := ODataFrame (setitem df "month" month)]>
                               (heap w)))),
             set_heap
               (<[fresh (dom (<[data := ODataFrame (setitem df "month" month)]>
                                (heap w))) := OSeries agg]>
                  (<[data := ODataFrame (setitem df "month" month)]> (heap w)))
               w)
        end.
Proof.
  intros Hdata Hdate. rewrite (data_analysis_run _ _ _ Hdata).
  destruct (getitem df "Date") as [date|] eqn:Hget;
    [|unfold getitem in Hget; by rewrite Hdate in Hget].
  assert (s_dtype date = dt_datetime) as Hsd.
  { unfold getitem in Hget. rewrite Hdate in Hget. by injection Hget as <-. }
  destruct (dt_month date) as [month|] eqn:Hmonth;
    [|unfold dt_month in Hmonth; by rewrite Hsd in Hmonth].
  exists date, month. split_and!; [done..|]. cbv zeta.
  by destruct (groupby_mean _ _ _).
Qed.

End aggregation_effects.

(** X5. When the [Date] column is absent or is not temporal, the
    aggregation stage fails before it has changed anything: the world is
    as it was, the table of the caller included, and the exception is the
    one for the missing key [Date] in the first case and the one of the
    [.dt] accessor in the second. *)
Theorem data_analysis_fails_unchanged `{Engine}
    (w : World) (data : positive) (df : DataFrame) :
  heap w !! data = Some (ODataFrame df) →
  column_dtype df "Date" ≠ Some dt_datetime →
  ∃ e, data_analysis data w = (Raise e, w)
       ∧ ("Date" ∉ column_names df → e = KeyError "Date")
       ∧ ("Date" ∈ column_names df → e = AttributeError).
Proof.
  intros Hdata Hdate. rewrite (data_analysis_run _ _ _ Hdata). unfold getitem.
  destruct (column_dtype df "Date") as [dt|] eqn:Hdt.
  - assert ("Date" ∈ column_names df) as Hin
      by (apply column_dtype_is_Some; eauto).
    unfold dt_month; simpl.
    destruct dt; try done; (eexists; split_and!; [reflexivity|done..]).
  - apply column_dtype_None in Hdt.
    eexists; split_and!; [reflexivity|done..].
Qed.

(** X6. When the [Date] column is temporal and the [Units Sold] column is
    absent, the aggregation stage fails with the exception for the missing
    key [Units Sold], but only after the assignment: the table of the
    caller has its [month] column all the same, and that is the only
    change to the world. *)
Theorem data_analysis_fails_after_assignment `{Engine}
    (w : World) (data : positive) (df : DataFrame) :
  heap w !! data = Some (ODataFrame df) →
  column_dtype df "Date" = Some dt_datetime →
  "Units Sold" ∉ column_names df →
  ∃ df',
    data_analysis data w
    = (Raise (KeyError "Units Sold"),
       set_heap (<[data := ODataFrame df']> (heap w)) w)
    ∧ "month" ∈ column_names df'
    ∧ df_rows df' = prod_map id add_month <$> df_rows df.
Proof.
  intros Hdata Hdate Hunits.
  destruct (data_analysis_temporal_run _ _ _ Hdata Hdate)
    as (date & month & Hget & Hmonth & ->).
  exists (setitem df "month" month). split_and!.
  - unfold groupby_mean.
    rewrite column_dtype_setitem_eq, column_dtype_setitem_ne by done.
    apply column_dtype_None in Hunits. by rewrite Hunits.
  - apply column_dtype_is_Some. rewrite column_dtype_setitem_eq. eauto.
  - by eapply setitem_month_rows.
Qed.

(** X7. Where the [month] column goes.  When the [Date] column is
    temporal, the table of the caller has after the stage, whether the
    stage returns or fails, the columns it had, in their order, and the
    [month] column after them if it had none; a [month] column it had is
    overwritten where it stands, whatever it held. *)
Theorem data_analysis_month_column `{Engine}
    (w : World) (data : positive) (df : DataFrame) (res : Pandas.res positive)
    (w' : World) :
  heap w !! data = Some (ODataFrame df) →
  column_dtype df "Date" = Some dt_datetime →
  data_analysis data w = (res, w') →
  ∃ df',
    heap w' !! data = Some (ODataFrame df')
    ∧ column_names df'
      = (if decide ("month" ∈ column_names df) then column_names df
         else column_names df ++ ["month"])
    ∧ length (df_rows df') = length (df_rows df)
    ∧ ∀ r', r' ∈ rows_of df' →
            ∃ r, r ∈ rows_of df ∧ key_of "month" r' = month_key r
                 ∧ ∀ c, c ≠ "month" → r' !! c = r !! c.
Proof.
  intros Hdata Hdate.
  destruct (data_analysis_temporal_run _ _ _ Hdata Hdate)
    as (date & month & Hget & Hmonth & ->).
  intros Hrun. exists (setitem df "month" month).
  assert (heap w' !! data = Some (ODataFrame (setitem df "month" month)))
    as Hafter.
  { destruct (groupby_mean _ _ _); injection Hrun as <- <-; simpl.
    - rewrite lookup_insert_ne; [apply lookup_insert_eq|].
      eapply fresh_heap_ne. apply lookup_insert_eq.
    - apply lookup_insert_eq. }
  split_and!; [done|apply set_dtype_names| |].
  - rewrite (setitem_month_rows _ _ _ Hget Hmonth). by rewrite length_fmap.
  - unfold rows_of. rewrite (setitem_month_rows _ _ _ Hget Hmonth).
    rewrite <-list_fmap_compose.
    intros r' [ir [-> Hir]]%list_elem_of_fmap. exists ir.2.
    split_and!; [by apply list_elem_of_fmap_2| |].
    + simpl. apply key_of_add_month.
    + intros c Hc. simpl. by apply add_month_lookup_ne.
Qed.

(** ** What the normalisation keeps *)

Lemma set_values_index df c dt vs : df_index (set_values df c dt vs) = df_index df.
Proof.
  unfold df_index, set_values; simpl. rewrite fmap_imap.
  etrans; [|apply imap_const]. by apply imap_ext.
Qed.

Lemma set_values_column_values_ne df c c' dt vs :
  c' ≠ c → column_values (set_values df c dt vs) c' = column_values df c'.
Proof.
  intros Hne. unfold column_values, set_values; simpl. rewrite fmap_imap.
  etrans; [|apply imap_const]. apply imap_ext. intros i ir _. simpl.
  by rewrite lookup_partial_alter_ne.
Qed.

Lemma column_dtype_set_values_ne df c c' dt vs :
  c' ≠ c → column_dtype (set_values df c dt vs) c' = column_dtype df c'.
Proof. intros Hne. by apply list_find_set_dtype_ne. Qed.

Lemma column_names_set_values df c dt vs :
  c ∈ column_names df → column_names (set_values df c dt vs) = column_names df.
Proof.
  intros Hin. unfold column_names, set_values; simpl.
  by rewrite set_dtype_names, decide_True.
Qed.

Lemma column_names_setitem df c s :
  c ∈ column_names df → column_names (setitem df c s) = column_names df.
Proof.
  intros Hin. unfold column_names, setitem; simpl.
  by rewrite set_dtype_names, decide_True.
Qed.

Lemma kept_outside_refl cs df : kept_outside cs df df.
Proof. by split_and!. Qed.

Lemma kept_outside_trans cs df1 df2 df3 :
  kept_outside cs df1 df2 → kept_outside cs df2 df3 → kept_outside cs df1 df3.
Proof.
  intros (Hn1 & Hi1 & Hc1) (Hn2 & Hi2 & Hc2). split_and!; [congruence..|].
  intros c Hc. destruct (Hc1 c Hc), (Hc2 c Hc). split; congruence.
Qed.

Lemma kept_outside_mono cs cs' df out :
  cs ⊆ cs' → kept_outside cs df out → kept_outside cs' df out.
Proof.
  intros Hsub (Hn & Hi & Hc). split_and!; [done..|].
  intros c Hnot. apply Hc. intros Hin. by apply Hnot, Hsub.
Qed.

Section normalisation_frame.
Context `{Engine}.

Lemma astype_columns_kept types cols df out :
  (∀ cd, cd ∈ cols → cd.1 ∈ column_names df) →
  astype_columns types cols df = Ok out →
  kept_outside types.*1 df out.
Proof.
  revert df. induction cols as [|[c dt] cols IH]; intros df Hcols; simpl.
  - intros [= <-]. apply kept_outside_refl.
  - assert (∀ cd, cd ∈ cols → cd.1 ∈ column_names df) as Hcols'
      by (intros cd Hcd; apply Hcols; by right).
    destruct (list_find _ types) as [[i [k ty]]|] eqn:Hfind; [|by apply IH].
    apply list_find_Some in Hfind as (Hi & Hk & _). simpl in Hk. subst k.
    destruct (pandas_dtype ty) as [dt'|]; [|done].
    destruct (astype_values _ _ _) as [vs|]; [|done].
    assert (c ∈ column_names df) as Hc by (apply (Hcols (c, dt)); by left).
    intros Hout. eapply kept_outside_trans; [|eapply IH, Hout].
    + split_and!;
        [by apply column_names_set_values|apply set_values_index|].
      intros c' Hc'.
      assert (c' ≠ c) as Hne.
      { intros ->. apply Hc'. apply list_elem_of_fmap. exists (c, ty).
        split; [done|]. by eapply list_elem_of_lookup_2. }
      split; [by apply column_dtype_set_values_ne
             |by apply set_values_column_values_ne].
    + intros cd Hcd. rewrite column_names_set_values by done. by apply Hcols'.
Qed.

Lemma astype_kept df types casted :
  astype df types = Ok casted → kept_outside types.*1 df casted.
Proof.
  unfold astype. destruct (list_find _ types) as [[i [k ty]]|]; [done|].
  apply astype_columns_kept. intros cd Hcd. by apply list_elem_of_fmap_2.
Qed.

Lemma astype_unknown_column df types :
  (∃ kt, kt ∈ types ∧ kt.1 ∉ column_names df) →
  ∃ k, astype df types = Raise (KeyError k)
       ∧ k ∈ types.*1 ∧ k ∉ column_names df.
Proof.
  intros (kt & Hkt & Hnot). unfold astype.
  destruct (list_find_elem_of (λ kt : string * string, kt.1 ∉ column_names df)
              types kt Hkt Hnot) as [[i [k ty]] Hfind].
  rewrite Hfind. apply list_find_Some in Hfind as (Hi & Hk & _).
  exists k. split_and!; [done| |done].
  apply list_elem_of_fmap. exists (k, ty).
  split; [done|]. by eapply list_elem_of_lookup_2.
Qed.

Lemma convert_dtypes_Ok_table w data df types l w' :
  heap w !! data = Some (ODataFrame df) →
  convert_dtypes data types w = (Ok l, w') →
  ∃ casted date parsed,
    astype df types = Ok casted
    ∧ getitem casted "Date" = Ok date
    ∧ to_datetime date = Ok parsed
    ∧ heap w' !! l = Some (ODataFrame (setitem casted "Date" parsed)).
Proof.
  intros Hdata. rewrite (convert_dtypes_run _ _ _ _ Hdata).
  destruct (astype df types) as [casted|] eqn:Hcast; [|done].
  cbv zeta.
  destruct (getitem casted "Date") as [date|] eqn:Hdate; [|done].
  destruct (to_datetime date) as [parsed|] eqn:Hparse; [|done].
  intros [= <- <-]. exists casted, date, parsed.
  split_and!; [done..|]. apply lookup_insert_eq.
Qed.

End normalisation_frame.

(** X8. A type map that names a column the table does not have makes the
    normalisation stage fail with the exception for a missing key, for
    such a column of the map, before anything is cast or parsed: the world
    is as it was. *)
Theorem convert_dtypes_unknown_column `{Engine}
    (w : World) (data : positive) (df : DataFrame)
    (types_dict : list (string * string)) :
  heap w !! data = Some (ODataFrame df) →
  (∃ kt, kt ∈ types_dict ∧ kt.1 ∉ column_names df) →
  ∃ k, convert_dtypes data types_dict w = (Raise (KeyError k), w)
       ∧ k ∈ types_dict.*1 ∧ k ∉ column_names df.
Proof.
  intros Hdata Hkey. rewrite (convert_dtypes_run _ _ _ _ Hdata).
  destruct (astype_unknown_column _ _ Hkey) as (k & -> & Hk). by exists k.
Qed.

(** X9. The normalisation stage touches only the columns of the type map
    and the [Date] column: the table it returns has the column names, in
    their order, and the index of the table it was given, and every other
    column has the type and the values it had. *)
Theorem convert_dtypes_keeps_other_columns `{Engine}
    (w : World) (data : positive) (df : DataFrame)
    (types_dict : list (string * string)) (l : positive) (w' : World) :
  heap w !! data = Some (ODataFrame df) →
  convert_dtypes data types_dict w = (Ok l, w') →
  ∃ out,
    heap w' !! l = Some (ODataFrame out)
    ∧ column_names out = column_names df
    ∧ df_index out = df_index df
    ∧ ∀ c, c ≠ "Date" → c ∉ types_dict.*1 →
           column_dtype out c = column_dtype df c
           ∧ column_values out c = column_values df c.
Proof.
  intros Hdata Hconv.
  destruct (convert_dtypes_Ok_table _ _ _ _ _ _ Hdata Hconv)
    as (casted & date & parsed & Hcast & Hdate & Hparse & Hout).
  exists (setitem casted "Date" parsed).
  destruct (astype_kept _ _ _ Hcast) as (Hnames & Hindex & Hcols).
  assert ("Date" ∈ column_names casted) as Hin.
  { apply column_dtype_is_Some. unfold getitem in Hdate.
    destruct (column_dtype casted "Date"); [eauto|done]. }
  split_and!.
  - done.
  - by rewrite column_names_setitem.
  - by rewrite setitem_index.
  - intros c Hdate' Hc. destruct (Hcols c Hc) as [<- <-].
    split; [by apply column_dtype_setitem_ne
           |by apply setitem_column_values_ne].
Qed.

(** X10. On a table without a [Date] column the normalisation stage never
    returns: it fails, and when the cast has gone through, with the
    exception for the missing key [Date]. *)
Theorem convert_dtypes_needs_date `{Engine}
    (w : World) (data : positive) (df : DataFrame)
    (types_dict : list (string * string)) :
  heap w !! data = Some (ODataFrame df) →
  "Date" ∉ column_names df →
  ∃ e w', convert_dtypes data types_dict w = (Raise e, w')
          ∧ (∀ casted, astype df types_dict = Ok casted → e = KeyError "Date").
Proof.
  intros Hdata Hdate. rewrite (convert_dtypes_run _ _ _ _ Hdata).
  destruct (astype df types_dict) as [casted|e] eqn:Hcast.
  - destruct (astype_kept _ _ _ Hcast) as (Hnames & _).
    cbv zeta. unfold getitem.
    assert (column_dtype casted "Date" = None) as ->
      by (apply column_dtype_None; by rewrite Hnames).
    eexists _, _. split; [reflexivity|done].
  - eexists _, _. split; [reflexivity|done].
Qed.


(** ** More on the cleaned table *)

Lemma sublist_length_eq {A} (l1 l2 : list A) :
  l1 `sublist_of` l2 → length l2 ≤ length l1 → l1 = l2.
Proof.
  induction 1 as [|x l1 l2 Hsub IH|x l1 l2 Hsub IH]; simpl; intros Hlen.
  - done.
  - f_equal. apply IH. lia.
  - apply sublist_length in Hsub. lia.
Qed.

Lemma distinct_rows_of_lookup cols (l : list row) :
  (∀ i j a b, l !! i = Some a → l !! j = Some b → same_row cols a b → i = j) →
  distinct_rows cols l.
Proof.
  induction l as [|r l IH]; intros Hl; simpl; [done|]. split.
  - intros r' [j Hj]%list_elem_of_lookup Hsame.
    by specialize (Hl 0 (S j) r r' eq_refl Hj Hsame).
  - apply IH. intros i j a b Hi Hj Hab.
    by specialize (Hl (S i) (S j) a b Hi Hj Hab) as [= ->].
Qed.

Lemma reset_index_id df :
  df_index df = (λ i, Z.of_nat i) <$> seq 0 (length (df_rows df)) →
  reset_index df = df.
Proof.
  intros Hindex. unfold reset_index. rewrite <-(DataFrame_eta df) at 3.
  f_equal. apply list_eq. intros i. rewrite list_lookup_imap.
  destruct (df_rows df !! i) as [[lbl r]|] eqn:Hi; [|done]. simpl.
  assert (df_index df !! i = Some lbl) as Hlbl
    by (unfold df_index; by rewrite list_lookup_fmap, Hi).
  rewrite Hindex, list_lookup_fmap in Hlbl.
  rewrite lookup_seq_lt in Hlbl by (by eapply lookup_lt_Some).
  by injection Hlbl as <-.
Qed.

(** Removing the duplicates and removing the rows with a missing value
    can be done in either order. *)
Lemma keep_first_filter_complete cols seen1 seen2 rows :
  (∀ r, complete cols r →
        Exists (same_row cols r) seen1 ↔ Exists (same_row cols r) seen2) →
  keep_first cols seen1 (filter (λ ir : Z * row, complete cols ir.2) rows)
  = filter (λ ir : Z * row, complete cols ir.2) (keep_first cols seen2 rows).
Proof.
  revert seen1 seen2. induction rows as [|x rows IH]; intros seen1 seen2 Hseen;
    [done|].
  rewrite filter_cons. cbn [keep_first].
  destruct (decide (complete cols x.2)) as [Hx|Hx].
  - cbn [keep_first].
    destruct (decide (Exists (same_row cols x.2) seen1)) as [H1|H1].
    + rewrite decide_True by (by apply Hseen). by apply IH.
    + rewrite decide_False by (by rewrite <-Hseen).
      rewrite filter_cons, decide_True by done. f_equal. apply IH.
      intros r Hr. rewrite !Exists_cons. by rewrite Hseen.
  - destruct (decide (Exists (same_row cols x.2) seen2)) as [H2|H2].
    + by apply IH.
    + rewrite filter_cons, decide_False by done. apply IH.
      intros r Hr. rewrite Exists_cons, Hseen by done.
      split; [auto|]. intros [Hsame|?]; [|done].
      exfalso. apply Hx. by eapply complete_same_row.
Qed.

Lemma dropna_drop_duplicates df :
  drop_duplicates (dropna df) = dropna (drop_duplicates df).
Proof.
  unfold drop_duplicates, dropna; simpl. f_equal.
  by apply keep_first_filter_complete.
Qed.

(** X12. The cleaning stage only removes rows: the rows of the table it
    returns are rows of its input, in the order of the input and with
    every value as it was, so that there are no more of them; and when
    there are as many, no row has been removed and only the index can
    differ. *)
Theorem data_cleaning_only_removes
    (w : World) (data : positive) (df : DataFrame) :
  heap w !! data = Some (ODataFrame df) →
  ∃ l w' out,
    data_cleaning data w = (Ok l, w')
    ∧ heap w' !! l = Some (ODataFrame out)
    ∧ rows_of out `sublist_of` rows_of df
    ∧ length (df_rows out) ≤ length (df_rows df)
    ∧ (length (df_rows out) = length (df_rows df) → rows_of out = rows_of df).
Proof.
  intros Hdata.
  destruct (data_cleaning_run _ _ _ Hdata) as (l & w' & Hrun & Hl & _).
  eexists l, w', _. split_and!; [done..| | |].
  - rewrite cleaned_rows. unfold rows_of. apply fmap_sublist.
    etrans; [apply sublist_filter|apply keep_first_sublist].
  - assert (rows_of (reset_index (dropna (drop_duplicates df)))
            `sublist_of` rows_of df) as Hsub.
    { rewrite cleaned_rows. unfold rows_of. apply fmap_sublist.
      etrans; [apply sublist_filter|apply keep_first_sublist]. }
    apply sublist_length in Hsub. unfold rows_of in Hsub.
    by rewrite !length_fmap in Hsub.
  - intros Hlen. apply sublist_length_eq.
    + rewrite cleaned_rows. unfold rows_of. apply fmap_sublist.
      etrans; [apply sublist_filter|apply keep_first_sublist].
    + unfold rows_of. rewrite !length_fmap. lia.
Qed.

(** X13. The tables that the cleaning stage returns as they are, are the
    clean ones: the table returned is equal to the table given exactly
    when no two rows of that table agree on all columns, no row has a
    missing value, and the index is 0, 1, ..., count-1. *)
Theorem data_cleaning_fixed_points
    (w : World) (data : positive) (df : DataFrame) :
  heap w !! data = Some (ODataFrame df) →
  ∃ l w' out,
    data_cleaning data w = (Ok l, w')
    ∧ heap w' !! l = Some (ODataFrame out)
    ∧ (out = df
       ↔ (∀ i j a b, rows_of df !! i = Some a → rows_of df !! j = Some b →
                     same_row (column_names df) a b → i = j)
         ∧ (∀ a, a ∈ rows_of df → complete (column_names df) a)
         ∧ df_index df = (λ i, Z.of_nat i) <$> seq 0 (length (df_rows df))).
Proof.
  intros Hdata.
  destruct (data_cleaning_run _ _ _ Hdata) as (l & w' & Hrun & Hl & _).
  eexists l, w', _. split_and!; [done..|]. split.
  - intros Heq. split_and!.
    + intros i j a b Hi Hj Hab. rewrite <-Heq in Hi, Hj.
      eapply distinct_rows_lookup; [apply cleaned_distinct|done..].
    + intros a Ha. rewrite <-Heq in Ha. by apply cleaned_complete in Ha.
    + rewrite <-Heq at 1 2. apply cleaned_index.
  - intros (Hdistinct & Hcomplete & Hindex).
    assert (drop_duplicates df = df) as ->.
    { unfold drop_duplicates. rewrite keep_first_id; [apply DataFrame_eta| |].
      - by apply distinct_rows_of_lookup.
      - intros ir _ Hex. by apply Exists_nil in Hex. }
    assert (dropna df = df) as ->.
    { unfold dropna. rewrite filter_all; [apply DataFrame_eta|].
      intros ir Hir. apply Hcomplete. by apply list_elem_of_fmap_2. }
    by apply reset_index_id.
Qed.

(** X14. The order of the two removals does not matter: the table that the
    cleaning stage returns is also the one obtained by removing the rows
    with a missing value first and the duplicates after. *)
Theorem data_cleaning_order_of_removals
    (w : World) (data : positive) (df : DataFrame) :
  heap w !! data = Some (ODataFrame df) →
  ∃ l w',
    data_cleaning data w = (Ok l, w')
    ∧ heap w' !! l
      = Some (ODataFrame (reset_index (drop_duplicates (dropna df)))).
Proof.
  intros Hdata.
  destruct (data_cleaning_run _ _ _ Hdata) as (l & w' & Hrun & Hl & _).
  exists l, w'. by rewrite dropna_drop_duplicates.
Qed.

(** ** Files *)

Section files.
Context `{Engine}.




















End files.

(** ** The loader, the image and the output file *)

Section input_output.
Context `{Engine}.

Lemma load_data_run w path :
  load_data path w
  = match files w !! path with
    | None => (Raise (FileNotFoundError path), w)
    | Some f =>
        match read_csv_file f with
        | None => (Raise ParserError, w)
        | Some df =>
            (Ok (fresh (dom (heap w))),
             set_heap (<[fresh (dom (heap w)) := ODataFrame df]> (heap w)) w)
        end
    end.
Proof.
  unfold load_data. rewrite bind_run. unfold read_file.
  destruct (files w !! path) as [f|]; [|done].
  by destruct (read_csv_file f).
Qed.

End input_output.

(** X15. The loader.  Without a file at the path it fails with the
    exception for a file not found, with a file that is not a table with
    the exception of the parser, and the world is as it was; otherwise it
    returns a new table, the one the parser makes of the file, at a
    reference that was not in use.  In no case does it change a file or a
    table that exists. *)
Theorem load_data_outcomes `{Engine} (w : World) (path : string) :
  (files w !! path = None →
   load_data path w = (Raise (FileNotFoundError path), w))
  ∧ (∀ f, files w !! path = Some f → read_csv_file f = None →
          load_data path w = (Raise ParserError, w))
  ∧ (∀ f df, files w !! path = Some f → read_csv_file f = Some df →
       ∃ l w', load_data path w = (Ok l, w')
               ∧ heap w !! l = None
               ∧ heap w' !! l = Some (ODataFrame df))
  ∧ (∀ res w', load_data path w = (res, w') →
               files w' = files w ∧ heap w ⊆ heap w').
Proof.
  rewrite load_data_run. split_and!.
  - by intros ->.
  - by intros f -> ->.
  - intros f df -> ->. eexists _, _. split; [reflexivity|].
    split; [apply fresh_heap|apply lookup_insert_eq].
  - intros res w'. destruct (files w !! path) as [f|]; [|by intros [= <- <-]].
    destruct (read_csv_file f); intros [= <- <-]; [|done].
    split; [done|apply heap_alloc_subseteq].
Qed.

(** X16. The image file.  The visualisation stage changes no table and no
    file other than [average_units_sold_by_month.png]; it writes that file
    exactly when it returns, the file then holds the current figure of the
    plotting library, and what it returns is the reference it was
    given. *)
Theorem data_visualization_writes_image `{Engine}
    (w : World) (new_df : positive) (o : obj) (vis_type : string)
    (res : Pandas.res positive) (w' : World) :
  heap w !! new_df = Some o →
  data_visualization new_df vis_type w = (res, w') →
  heap w' = heap w
  ∧ (∀ p, p ≠ "average_units_sold_by_month.png" →
          files w' !! p = files w !! p)
  ∧ match res with
    | Ok l =>
        l = new_df
        ∧ ∃ fig, gcf w' = Some fig
                 ∧ files w' !! "average_units_sold_by_month.png"
                   = Some (ImageFile fig)
    | Raise _ => files w' = files w
    end.
Proof.
  intros Ho. rewrite (data_visualization_run _ _ _ _ Ho).
  destruct (check_kind o vis_type) as [kind|e]; [|by intros [= <- <-]].
  cbv zeta. destruct (backend_plot _ _ _ _ _).2; intros [= <- <-]; simpl.
  - split_and!; [done| |done|].
    + intros p Hp. by apply lookup_insert_ne.
    + eexists. split; [done|]. apply lookup_insert_eq.
  - done.
Qed.



(** ** The flow *)

Lemma bind_cases {A B} (m : M A) (k : A → M B) w res w' :
  (m ≫= k) w = (res, w') →
  (∃ e, m w = (Raise e, w') ∧ res = Raise e)
  ∨ (∃ a w1, m w = (Ok a, w1) ∧ k a w1 = (res, w')).
Proof.
  rewrite bind_run. destruct (m w) as [[a|e] w1].
  - intros Hk. right. by exists a, w1.
  - intros [= <- <-]. left. by exists e.
Qed.

Section flow.
Context `{Engine}.

Lemma astype_columns_raise types cols df e :
  astype_columns types cols df = Raise e → flow_exn e.
Proof.
  revert df. induction cols as [|[c dt] cols IH]; intros df; simpl; [done|].
  destruct (list_find _ types) as [[i [k ty]]|]; [|by apply IH].
  destruct (pandas_dtype ty); [|by intros [= <-]].
  destruct (astype_values _ _ _); [by apply IH|by intros [= <-]].
Qed.

Lemma astype_raise df types e : astype df types = Raise e → flow_exn e.
Proof.
  unfold astype. destruct (list_find _ types) as [[i [k ty]]|].
  - by intros [= <-].
  - apply astype_columns_raise.
Qed.

Lemma groupby_mean_raise df key col e :
  groupby_mean df key col = Raise e → flow_exn e.
Proof.
  unfold groupby_mean.
  destruct (column_dtype df key); [|by intros [= <-]].
  destruct (column_dtype df col) as [dt|]; [|by intros [= <-]].
  match goal with
  | |- context [match ?o with Some _ => _ | None => Raise TypeError end] =>
      destruct o
  end; [done|by intros [= <-]].
Qed.

Lemma groupby_mean_name df key col agg :
  groupby_mean df key col = Ok agg →
  s_name agg = Some col ∧ s_index_name agg = Some key.
Proof.
  unfold groupby_mean.
  destruct (column_dtype df key); [|done].
  destruct (column_dtype df col) as [dt|]; [|done].
  match goal with
  | |- context [match ?o with Some _ => _ | None => Raise TypeError end] =>
      destruct o
  end; [|done].
  by intros [= <-].
Qed.

Lemma load_data_spec w path res w' :
  load_data path w = (res, w') →
  match res with
  | Raise e => flow_exn e
  | Ok l => ∃ df, heap w' !! l = Some (ODataFrame df)
  end.
Proof.
  rewrite load_data_run.
  destruct (files w !! path) as [f|]; [|by intros [= <- <-]].
  destruct (read_csv_file f) as [df|]; intros [= <- <-]; [|done].
  exists df. apply lookup_insert_eq.
Qed.

Lemma convert_dtypes_spec w data df types res w' :
  heap w !! data = Some (ODataFrame df) →
  convert_dtypes data types w = (res, w') →
  match res with
  | Raise e => flow_exn e
  | Ok l => ∃ out, heap w' !! l = Some (ODataFrame out)
                   ∧ column_dtype out "Date" = Some dt_datetime
  end.
Proof.
  intros Hdata. rewrite (convert_dtypes_run _ _ _ _ Hdata).
  destruct (astype df types) as [casted|e] eqn:Hcast;
    [|intros [= <- <-]; by eapply astype_raise].
  cbv zeta. unfold getitem.
  destruct (column_dtype casted "Date") as [dt|]; [|by intros [= <- <-]].
  destruct (to_datetime _) as [parsed|e] eqn:Hparse.
  - intros [= <- <-]. eexists. split; [apply lookup_insert_eq|].
    rewrite column_dtype_setitem_eq. f_equal.
    by apply to_datetime_temporal in Hparse as [? _].
  - intros [= <- <-]. unfold to_datetime in Hparse.
    destruct (to_datetime_values _ _); [done|]. by injection Hparse as <-.
Qed.

Lemma data_analysis_spec w data df res w' :
  heap w !! data = Some (ODataFrame df) →
  column_dtype df "Date" = Some dt_datetime →
  data_analysis data w = (res, w') →
  match res with
  | Raise e => flow_exn e
  | Ok l => ∃ agg, heap w' !! l = Some (OSeries agg)
                   ∧ s_name agg = Some "Units Sold"
                   ∧ StronglySorted Z.lt (s_items agg).*1
  end.
Proof.
  intros Hdata Hdate.
  destruct (data_analysis_temporal_run _ _ _ Hdata Hdate)
    as (date & month & Hget & Hmonth & ->).
  destruct (groupby_mean _ _ _) as [agg|e] eqn:Hagg; intros [= <- <-].
  - exists agg. split_and!; [apply lookup_insert_eq| |].
    + by apply groupby_mean_name in Hagg as [? _].
    + by eapply groupby_mean_sorted.
  - by eapply groupby_mean_raise.
Qed.

Lemma data_visualization_line_spec w new_df agg res w' :
  heap w !! new_df = Some (OSeries agg) →
  data_visualization new_df "line" w = (res, w') →
  match res with
  | Raise e => flow_exn e
  | Ok l =>
      l = new_df ∧ heap w' = heap w
      ∧ ∃ fig, gcf w' = Some fig
               ∧ files w' = <["average_units_sold_by_month.png"
                              := ImageFile fig]> (files w)
  end.
Proof.
  intros Hagg. rewrite (data_visualization_run _ _ _ _ Hagg).
  rewrite check_kind_series, decide_True by compute_done. cbv zeta.
  destruct (backend_plot _ _ _ _ _).2; intros [= <- <-]; [|done].
  split_and!; [done..|]. by eexists.
Qed.

(** How the flow ends: with one of its exceptions, or with the two
    output files written. *)
Lemma run_pipeline_outcome w path res w' :
  run_pipeline path w = (res, w') →
  match res with
  | Raise e => flow_exn e
  | Ok _ =>
      ∃ l agg fig,
        heap w' !! l = Some (OSeries agg)
        ∧ s_name agg = Some "Units Sold"
        ∧ StronglySorted Z.lt (s_items agg).*1
        ∧ gcf w' = Some fig
        ∧ files w' !! "average_units_sold_by_month.png" = Some (ImageFile fig)
        ∧ files w' !! "average_units_sold_by_month.csv"
          = Some (to_csv (OSeries agg))
  end.
Proof.
  unfold run_pipeline.
  intros [(e & Hload & ->)|(df & w1 & Hload & Hrun)]%bind_cases.
  { by apply load_data_spec in Hload. }
  apply load_data_spec in Hload as [table Hdf].
  destruct (data_cleaning_run _ _ _ Hdf) as (l1 & w2 & Hclean & Hl1 & _).
  rewrite (bind_ok _ _ _ _ _ Hclean) in Hrun.
  apply bind_cases in Hrun as [(e & Hconv & ->)|(l2 & w3 & Hconv & Hrun)].
  { by apply (convert_dtypes_spec _ _ _ _ _ _ Hl1) in Hconv. }
  apply (convert_dtypes_spec _ _ _ _ _ _ Hl1) in Hconv as (out & Hl2 & Hdate).
  apply bind_cases in Hrun as [(e & Hagg & ->)|(l3 & w4 & Hagg & Hrun)].
  { by apply (data_analysis_spec _ _ _ _ _ Hl2 Hdate) in Hagg. }
  apply (data_analysis_spec _ _ _ _ _ Hl2 Hdate) in Hagg
    as (agg & Hl3 & Hname & Hsorted).
  apply bind_cases in Hrun as [(e & Hviz & ->)|(l4 & w5 & Hviz & Hrun)].
  { by apply (data_visualization_line_spec _ _ _ _ _ Hl3) in Hviz. }
  apply (data_visualization_line_spec _ _ _ _ _ Hl3) in Hviz
    as (-> & Hheap & fig & Hgcf & Hfiles).
  assert (heap w5 !! l3 = Some (OSeries agg)) as Hl3' by by rewrite Hheap.
  rewrite bind_run, (save_to_csv_run _ _ _ _ Hl3') in Hrun.
  injection Hrun as <- <-. exists l3, agg, fig. cbn [heap files gcf].
  split_and!; [done..| |apply lookup_insert_eq].
  rewrite lookup_insert_ne by done. rewrite Hfiles. apply lookup_insert_eq.
Qed.

End flow.

(** X19. When the flow completes, both output files are there: the image
    holds the current figure, and the delimited file is the file of the
    aggregate, which is in the store: the one header [Units Sold] and one
    record per month, of one field, the mean, in the ascending order of
    the months. *)
Theorem run_pipeline_outputs `{Engine} (w : World) (path : string) (w' : World) :
  run_pipeline path w = (Ok tt, w') →
  ∃ l agg fig,
    heap w' !! l = Some (OSeries agg)
    ∧ StronglySorted Z.lt (s_items agg).*1
    ∧ files w' !! "average_units_sold_by_month.csv"
      = Some (CsvFile ["Units Sold"] ((λ lv : Z * cell, [lv.2]) <$> s_items agg))
    ∧ gcf w' = Some fig
    ∧ files w' !! "average_units_sold_by_month.png" = Some (ImageFile fig).
Proof.
  intros Hrun. apply run_pipeline_outcome in Hrun
    as (l & agg & fig & Hl & Hname & Hsorted & Hgcf & Hpng & Hcsv).
  exists l, agg, fig. split_and!; [done..| |done|done].
  rewrite Hcsv. unfold to_csv. by rewrite Hname.
Qed.



(** ** The further properties at work on the examples *)




Lemma data_analysis_size_witness :
  ∃ l w' agg,
    data_analysis (H := Demo.engine) 1%positive
      (Demo.world_of (ODataFrame Demo.sales)) = (Ok l, w')
    ∧ heap w' !! l = Some (OSeries agg)
    ∧ length (s_items agg) ≤ length (df_rows Demo.sales)
    ∧ ((∀ (r : row) t, r ∈ rows_of Demo.sales → r !! "Date" = Some (VDate t) →
                       (1 ≤ ts_month t ≤ 12)%Z) →
       length (s_items agg) ≤ 12
       ∧ ∀ m v, (m, v) ∈ s_items agg → (1 ≤ m ≤ 12)%Z).
Proof.
  apply (data_analysis_size (H := Demo.engine)
           (Demo.world_of (ODataFrame Demo.sales)) 1%positive Demo.sales).
  - reflexivity.
  - reflexivity.
  - left. reflexivity.
Defined.

Lemma data_analysis_fails_unchanged_witness :
  column_dtype Demo.raw_sales "Date" ≠ Some dt_datetime
  ∧ ∃ e, data_analysis (H := Demo.engine) 1%positive
           (Demo.world_of (ODataFrame Demo.raw_sales))
         = (Raise e, Demo.world_of (ODataFrame Demo.raw_sales))
         ∧ ("Date" ∉ column_names Demo.raw_sales → e = KeyError "Date")
         ∧ ("Date" ∈ column_names Demo.raw_sales → e = AttributeError).
Proof.
  split; [discriminate|].
  apply (data_analysis_fails_unchanged (H := Demo.engine)
           (Demo.world_of (ODataFrame Demo.raw_sales)) 1%positive
           Demo.raw_sales).
  - reflexivity.
  - discriminate.
Defined.

Lemma data_analysis_fails_after_assignment_witness :
  ("Units Sold" ∉ column_names Demo.dates_only)
  ∧ ∃ df',
      data_analysis (H := Demo.engine) 1%positive
        (Demo.world_of (ODataFrame Demo.dates_only))
      = (Raise (KeyError "Units Sold"),
         set_heap (<[1%positive := ODataFrame df']>
                     (heap (Demo.world_of (ODataFrame Demo.dates_only))))
           (Demo.world_of (ODataFrame Demo.dates_only)))
      ∧ "month" ∈ column_names df'
      ∧ df_rows df' = prod_map id add_month <$> df_rows Demo.dates_only.
Proof.
  split; [compute_done|].
  apply (data_analysis_fails_after_assignment (H := Demo.engine)
           (Demo.world_of (ODataFrame Demo.dates_only)) 1%positive
           Demo.dates_only).
  - reflexivity.
  - reflexivity.
  - compute_done.
Defined.

Lemma data_analysis_month_column_witness :
  ∃ df',
    heap (data_analysis (H := Demo.engine) 1%positive
            (Demo.world_of (ODataFrame Demo.sales))).2 !! 1%positive
    = Some (ODataFrame df')
    ∧ column_names df'
      = (if decide ("month" ∈ column_names Demo.sales)
         then column_names Demo.sales
         else column_names Demo.sales ++ ["month"])
    ∧ length (df_rows df') = length (df_rows Demo.sales)
    ∧ ∀ r', r' ∈ rows_of df' →
            ∃ r, r ∈ rows_of Demo.sales ∧ key_of "month" r' = month_key r
                 ∧ ∀ c, c ≠ "month" → r' !! c = r !! c.
Proof.
  apply (data_analysis_month_column (H := Demo.engine)
           (Demo.world_of (ODataFrame Demo.sales)) 1%positive Demo.sales
           (data_analysis (H := Demo.engine) 1%positive
              (Demo.world_of (ODataFrame Demo.sales))).1).
  - reflexivity.
  - reflexivity.
  - apply surjective_pairing.
Defined.

Lemma convert_dtypes_unknown_column_witness :
  (∃ kt, kt ∈ [("Price", "str")] ∧ kt.1 ∉ column_names Demo.raw_sales)
  ∧ ∃ k, convert_dtypes (H := Demo.engine) 1%positive [("Price", "str")]
           (Demo.world_of (ODataFrame Demo.raw_sales))
         = (Raise (KeyError k), Demo.world_of (ODataFrame Demo.raw_sales))
         ∧ k ∈ [("Price", "str")].*1 ∧ k ∉ column_names Demo.raw_sales.
Proof.
  assert (∃ kt : string * string,
            kt ∈ [("Price", "str")] ∧ kt.1 ∉ column_names Demo.raw_sales)
    as Hkey.
  { exists ("Price", "str"). split; [by left|compute_done]. }
  split; [exact Hkey|].
  apply (convert_dtypes_unknown_column (H := Demo.engine)
           (Demo.world_of (ODataFrame Demo.raw_sales)) 1%positive
           Demo.raw_sales [("Price", "str")]).
  - reflexivity.
  - exact Hkey.
Defined.

Lemma convert_dtypes_keeps_other_columns_witness :
  ∃ l w',
    convert_dtypes (H := Demo.engine) 1%positive [("Date", "str")]
      (Demo.world_of (ODataFrame Demo.raw_sales)) = (Ok l, w')
    ∧ ∃ out,
        heap w' !! l = Some (ODataFrame out)
        ∧ column_names out = column_names Demo.raw_sales
        ∧ df_index out = df_index Demo.raw_sales
        ∧ ∀ c, c ≠ "Date" → c ∉ [("Date", "str")].*1 →
               column_dtype out c = column_dtype Demo.raw_sales c
               ∧ column_values out c = column_values Demo.raw_sales c.
Proof.
  eexists _, _. split; [vm_compute; reflexivity|].
  apply (convert_dtypes_keeps_other_columns (H := Demo.engine)
           (Demo.world_of (ODataFrame Demo.raw_sales)) 1%positive
           Demo.raw_sales [("Date", "str")]).
  - reflexivity.
  - vm_compute. reflexivity.
Defined.

Lemma convert_dtypes_needs_date_witness :
  ("Date" ∉ column_names Demo.units_only)
  ∧ ∃ e w',
      convert_dtypes (H := Demo.engine) 1%positive []
        (Demo.world_of (ODataFrame Demo.units_only)) = (Raise e, w')
      ∧ (∀ casted, astype (H := Demo.engine) Demo.units_only [] = Ok casted →
                   e = KeyError "Date").
Proof.
  split; [compute_done|].
  apply (convert_dtypes_needs_date (H := Demo.engine)
           (Demo.world_of (ODataFrame Demo.units_only)) 1%positive
           Demo.units_only []).
  - reflexivity.
  - compute_done.
Defined.


Lemma data_cleaning_only_removes_witness :
  ∃ l w' out,
    data_cleaning 1%positive (Demo.world_of (ODataFrame Demo.raw_sales))
    = (Ok l, w')
    ∧ heap w' !! l = Some (ODataFrame out)
    ∧ rows_of out `sublist_of` rows_of Demo.raw_sales
    ∧ length (df_rows out) ≤ length (df_rows Demo.raw_sales)
    ∧ (length (df_rows out) = length (df_rows Demo.raw_sales) →
       rows_of out = rows_of Demo.raw_sales).
Proof.
  apply (data_cleaning_only_removes
           (Demo.world_of (ODataFrame Demo.raw_sales)) 1%positive
           Demo.raw_sales).
  reflexivity.
Defined.

Lemma data_cleaning_fixed_points_witness :
  ∃ l w' out,
    data_cleaning 1%positive (Demo.world_of (ODataFrame Demo.sales))
    = (Ok l, w')
    ∧ heap w' !! l = Some (ODataFrame out)
    ∧ (out = Demo.sales
       ↔ (∀ i j a b, rows_of Demo.sales !! i = Some a →
                     rows_of Demo.sales !! j = Some b →
                     same_row (column_names Demo.sales) a b → i = j)
         ∧ (∀ a, a ∈ rows_of Demo.sales → complete (column_names Demo.sales) a)
         ∧ df_index Demo.sales
           = (λ i, Z.of_nat i) <$> seq 0 (length (df_rows Demo.sales))).
Proof.
  apply (data_cleaning_fixed_points
           (Demo.world_of (ODataFrame Demo.sales)) 1%positive Demo.sales).
  reflexivity.
Defined.

Lemma data_cleaning_order_of_removals_witness :
  ∃ l w',
    data_cleaning 1%positive (Demo.world_of (ODataFrame Demo.raw_sales))
    = (Ok l, w')
    ∧ heap w' !! l
      = Some (ODataFrame (reset_index (drop_duplicates (dropna Demo.raw_sales)))).
Proof.
  apply (data_cleaning_order_of_removals
           (Demo.world_of (ODataFrame Demo.raw_sales)) 1%positive
           Demo.raw_sales).
  reflexivity.
Defined.

Lemma load_data_outcomes_witness :
  files Demo.disk !! "Sales.csv" = None
  ∧ load_data (H := Demo.engine) "Sales.csv" Demo.disk
    = (Raise (FileNotFoundError "Sales.csv"), Demo.disk).
Proof.
  split; [reflexivity|].
  apply (proj1 (load_data_outcomes (H := Demo.engine) Demo.disk "Sales.csv")).
  reflexivity.
Defined.

Lemma data_visualization_writes_image_witness :
  heap (data_visualization (H := Demo.engine) 1%positive "line"
          (Demo.world_of (OSeries Demo.monthly))).2
  = heap (Demo.world_of (OSeries Demo.monthly))
  ∧ (∀ p, p ≠ "average_units_sold_by_month.png" →
          files (data_visualization (H := Demo.engine) 1%positive "line"
                   (Demo.world_of (OSeries Demo.monthly))).2 !! p
          = files (Demo.world_of (OSeries Demo.monthly)) !! p)
  ∧ match (data_visualization (H := Demo.engine) 1%positive "line"
             (Demo.world_of (OSeries Demo.monthly))).1 with
    | Ok l =>
        l = 1%positive
        ∧ ∃ fig,
            gcf (data_visualization (H := Demo.engine) 1%positive "line"
                   (Demo.world_of (OSeries Demo.monthly))).2 = Some fig
            ∧ files (data_visualization (H := Demo.engine) 1%positive "line"
                       (Demo.world_of (OSeries Demo.monthly))).2
                !! "average_units_sold_by_month.png"
              = Some (ImageFile fig)
    | Raise _ =>
        files (data_visualization (H := Demo.engine) 1%positive "line"
                 (Demo.world_of (OSeries Demo.monthly))).2
        = files (Demo.world_of (OSeries Demo.monthly))
    end.
Proof.
  apply (data_visualization_writes_image (H := Demo.engine)
           (Demo.world_of (OSeries Demo.monthly)) 1%positive
           (OSeries Demo.monthly) "line"
           (data_visualization (H := Demo.engine) 1%positive "line"
              (Demo.world_of (OSeries Demo.monthly))).1
           (data_visualization (H := Demo.engine) 1%positive "line"
              (Demo.world_of (OSeries Demo.monthly))).2).
  - reflexivity.
  - apply surjective_pairing.
Defined.



Lemma run_pipeline_outputs_witness :
  run_pipeline (H := Demo.engine) "Online Sales Data.csv" Demo.disk
  = (Ok tt,
     (run_pipeline (H := Demo.engine) "Online Sales Data.csv" Demo.disk).2)
  ∧ ∃ l agg fig,
      heap (run_pipeline (H := Demo.engine) "Online Sales Data.csv"
              Demo.disk).2 !! l = Some (OSeries agg)
      ∧ StronglySorted Z.lt (s_items agg).*1
      ∧ files (run_pipeline (H := Demo.engine) "Online Sales Data.csv"
                 Demo.disk).2 !! "average_units_sold_by_month.csv"
        = Some (CsvFile ["Units Sold"]
                  ((λ lv : Z * cell, [lv.2]) <$> s_items agg))
      ∧ gcf (run_pipeline (H := Demo.engine) "Online Sales Data.csv"
               Demo.disk).2 = Some fig
      ∧ files (run_pipeline (H := Demo.engine) "Online Sales Data.csv"
                 Demo.disk).2 !! "average_units_sold_by_month.png"
        = Some (ImageFile fig).
Proof.
  assert (run_pipeline (H := Demo.engine) "Online Sales Data.csv" Demo.disk
          = (Ok tt,
             (run_pipeline (H := Demo.engine) "Online Sales Data.csv"
                Demo.disk).2)) as Hrun.
  { assert ((run_pipeline (H := Demo.engine) "Online Sales Data.csv"
               Demo.disk).1 = Ok tt) as Hok by (vm_compute; reflexivity).
    etrans; [apply surjective_pairing|]. by rewrite Hok. }
  split; [exact Hrun|].
  exact (run_pipeline_outputs (H := Demo.engine) Demo.disk
           "Online Sales Data.csv" _ Hrun).
Defined.


